(** * APReader: the catman channel decoder of [apread/entries.py]

    A shallow embedding of [Channel] (header decode, extended header,
    body decode) and [Group] (time-channel selection, interval
    inference), with the properties of the decoding pipeline stated
    against it.

    Conventions of the embedding:
    - a Python [float] and a NumPy [float64] are IEEE binary64 values,
      modelled by Rocq's primitive [float]; a NumPy [float32] is held as
      the binary64 value it equals, and the sequence that holds it
      records the number type, so that its arithmetic is rounded to
      binary32;
    - a Python exception is a value of [pyerr] returned through [result];
    - the reader is threaded explicitly: a method that reads is a
      function from the cursor to a result and the new cursor;
    - channel objects live in a store and are named by their index there,
      so that a [Group] and a [Channel.Time] field hold references. *)

From Stdlib Require Import ZArith Lia Bool List Ascii String Floats Uint63.
From Stdlib Require Import DecimalString.
From stdpp Require Import base list.

Set Warnings "-inexact-float".

Local Open Scope Z_scope.

(* ===================================================================== *)
(** ** Python run-time: exceptions and built-ins used by the module      *)
(* ===================================================================== *)

Inductive pyerr : Set :=
| AttributeError   (* attribute read on an object that does not have it *)
| IndexError       (* sequence index out of range *)
| ZeroDivisionError
| ValueError       (* an argument of the right type and a wrong value *)
| OutOfBounds.     (* cursor read or seek outside the buffer *)

Inductive result (A : Type) : Type :=
| Ok (a : A)
| Err (e : pyerr).
Arguments Ok {A} a.
Arguments Err {A} e.

Definition is_ok {A} (r : result A) : bool :=
  match r with Ok _ => true | Err _ => false end.

Definition rbind {A B} (r : result A) (k : A -> result B) : result B :=
  match r with Ok a => k a | Err e => Err e end.

Module Py.

(** [s.replace(' ', "_")] *)
Fixpoint replace_space (s : string) : string :=
  match s with
  | EmptyString => EmptyString
  | String c r =>
      String (if Ascii.eqb c " "%char then "_"%char else c) (replace_space r)
  end.

(** [s.rfind(c)]: index of the last occurrence, [-1] when there is none. *)
Fixpoint rfind_from (c : ascii) (s : string) (i : Z) (last : Z) : Z :=
  match s with
  | EmptyString => last
  | String d r => rfind_from c r (i + 1) (if Ascii.eqb d c then i else last)
  end.
Definition rfind (c : ascii) (s : string) : Z := rfind_from c s 0 (-1).

(** [s[:n]] and [s[n:]] for [0 <= n]. *)
Definition str_take (n : Z) (s : string) : string :=
  substring 0 (Z.to_nat n) s.
Definition str_drop (n : Z) (s : string) : string :=
  substring (Z.to_nat n) (String.length s - Z.to_nat n) s.

(** [posixpath.basename]: everything after the last slash. *)
Definition basename (p : string) : string :=
  str_drop (rfind "/"%char p + 1) p.

(** The loop of [genericpath._splitext] that skips leading dots: is there
    a character other than the dot in [p[i:dotIndex]]? *)
Fixpoint has_non_dot (p : string) (i : nat) (n : nat) : bool :=
  match n with
  | O => false
  | S n' =>
      match String.get i p with
      | Some c => if Ascii.eqb c "."%char then has_non_dot p (S i) n' else true
      | None => true
      end
  end.

(** [posixpath.splitext(p)[0]]: the path without its extension. *)
Definition splitext_root (p : string) : string :=
  let sepIndex := rfind "/"%char p in
  let dotIndex := rfind "."%char p in
  if (sepIndex <? dotIndex)
     && has_non_dot p (Z.to_nat (sepIndex + 1))
                      (Z.to_nat (dotIndex - (sepIndex + 1)))
  then str_take dotIndex p
  else p.

(** [os.path.splitext(os.path.basename(fileName))[0]] *)
Definition stem (fileName : string) : string :=
  splitext_root (basename fileName).

(** *** Floats *)

(** [float(n)] for a Python integer in the 16-bit ranges read here. *)
Definition float_of_int (n : Z) : float :=
  if n <? 0 then PrimFloat.opp (PrimFloat.of_uint63 (Uint63.of_Z (- n)))
  else PrimFloat.of_uint63 (Uint63.of_Z n).

(** [a / b] on Python floats raises on a zero divisor. *)
Definition truediv (a b : float) : result float :=
  if PrimFloat.eqb b 0%float then Err ZeroDivisionError
  else Ok (PrimFloat.div a b).

(** Round [n * 2^e] to the nearest integer, ties to even. *)
Definition round_half_even (n : Z) (e : Z) : Z :=
  if 0 <=? e then n * 2 ^ e
  else
    let d := 2 ^ (- e) in
    let q := n / d in
    let r := n mod d in
    if 2 * r <? d then q
    else if d <? 2 * r then q + 1
    else if Z.even q then q else q + 1.

Definition digit (d : Z) : ascii := ascii_of_nat (48 + Z.to_nat d).

Definition decimal (n : Z) : string :=
  NilZero.string_of_uint (N.to_uint (Z.to_N n)).

(** [f"{x:.3f}"]: fixed notation with three decimals, correctly rounded
    from the exact binary value. *)
Definition format_3f (x : float) : string :=
  match Prim2SF x with
  | S754_nan => "nan"
  | S754_infinity s => if s then "-inf" else "inf"
  | S754_zero s => (if s then "-0.000" else "0.000")
  | S754_finite s m e =>
      let n := round_half_even (Z.pos m * 1000) e in
      ((if s then "-" else "") ++ decimal (n / 1000) ++ "."
       ++ String (digit (n mod 1000 / 100))
            (String (digit (n mod 100 / 10))
               (String (digit (n mod 10)) EmptyString)))%string
  end.

End Py.


(* ===================================================================== *)
(** ** The reader: a cursor over the byte buffer                         *)
(* ===================================================================== *)

Module BinaryReader.

(** The reader is [apread.binaryReader.BinaryReader]; what entries.py
    uses of it is [tell], [seek], the typed reads and the underlying
    file object [buf] handed to NumPy. *)
Record t : Type := mk { buf : list Byte.byte; pos : Z }.

Definition size (r : t) : Z := Z.of_nat (Datatypes.length (buf r)).

(** Reading computations: the cursor goes in, a value and the moved
    cursor (or an exception) come out. *)
Definition M (A : Type) : Type := t -> result (A * t).

Definition ret {A} (a : A) : M A := fun r => Ok (a, r).
Definition raise {A} (e : pyerr) : M A := fun _ => Err e.
Definition bind {A B} (m : M A) (k : A -> M B) : M B :=
  fun r => match m r with
           | Ok (a, r') => k a r'
           | Err e => Err e
           end.

Declare Scope reader_scope.
Delimit Scope reader_scope with reader.
Notation "'do' x <- m ; k" := (bind m (fun x => k))
  (at level 10, x name, m at level 100, k at level 200) : reader_scope.
Local Open Scope reader_scope.

(** *** Bytes to values

    The conversions behind the typed reads: integers and IEEE floats in
    the little-endian layout that the wire format fixes. *)

Definition byte_val (b : Byte.byte) : Z := Z.of_N (Byte.to_N b).

Fixpoint le_unsigned (bs : list Byte.byte) : Z :=
  match bs with
  | [] => 0
  | b :: r => Z.lor (byte_val b) (Z.shiftl (le_unsigned r) 8)
  end.

Definition le_signed (bs : list Byte.byte) : Z :=
  let w := 8 * Z.of_nat (Datatypes.length bs) in
  let u := le_unsigned bs in
  if Z.testbit u (w - 1) then u - 2 ^ w else u.

(** IEEE 754 interchange formats: [ebits] exponent bits, [mbits]
    fraction bits. The value is exact in binary64 for both widths
    read here. *)
Definition ieee_decode (ebits mbits : Z) (u : Z) : float :=
  let s := Z.testbit u (ebits + mbits) in
  let e := Z.land (Z.shiftr u mbits) (2 ^ ebits - 1) in
  let m := Z.land u (2 ^ mbits - 1) in
  let bias := 2 ^ (ebits - 1) - 1 in
  SF2Prim
    (if e =? 0 then
       if m =? 0 then S754_zero s
       else S754_finite s (Z.to_pos m) (1 - bias - mbits)
     else if e =? 2 ^ ebits - 1 then
       if m =? 0 then S754_infinity s else S754_nan
     else S754_finite s (Z.to_pos (m + 2 ^ mbits)) (e - bias - mbits)).

Definition f64_of_bytes (bs : list Byte.byte) : float :=
  ieee_decode 11 52 (le_unsigned bs).
Definition f32_of_bytes (bs : list Byte.byte) : float :=
  ieee_decode 8 23 (le_unsigned bs).

(** Is the byte a control or pad character (NUL .. space)? *)
Definition is_pad (b : Byte.byte) : bool := byte_val b <=? 32.

Fixpoint rtrim (bs : list Byte.byte) : list Byte.byte :=
  match bs with
  | [] => []
  | b :: r =>
      match rtrim r with
      | [] => if is_pad b then [] else [b]
      | r' => b :: r'
      end
  end.

Definition text_of_bytes (bs : list Byte.byte) : string :=
  string_of_list_byte (rtrim bs).

(** *** Cursor operations *)

(** Modelled from the spec: the cursor of binaryReader.py, which is not
    among the sources. [tell] is the read offset. *)
Definition tell : M Z := fun r => Ok (pos r, r).

(** Modelled from the spec: [seek] to an absolute offset; a target
    outside the buffer fails, seeking backward is legal. *)
Definition seek (target : Z) : M unit := fun r =>
  if (0 <=? target) && (target <=? size r)
  then Ok (tt, mk (buf r) target)
  else Err OutOfBounds.

(** Modelled from the spec: every read needs [offset + width <= buffer
    length] and advances the offset by exactly the width read. *)
Definition read_bytes (n : Z) : M (list Byte.byte) := fun r =>
  if (0 <=? n) && (0 <=? pos r) && (pos r + n <=? size r)
  then Ok (take (Z.to_nat n) (drop (Z.to_nat (pos r)) (buf r)),
           mk (buf r) (pos r + n))
  else Err OutOfBounds.

(** Modelled from the spec: the typed fixed-width reads. *)
Definition read_byte : M Z := do bs <- read_bytes 1; ret (le_unsigned bs).
Definition read_char : M Z := do bs <- read_bytes 1; ret (le_signed bs).
Definition read_int16 : M Z := do bs <- read_bytes 2; ret (le_signed bs).
Definition read_int32 : M Z := do bs <- read_bytes 4; ret (le_signed bs).
Definition read_float : M float := do bs <- read_bytes 4; ret (f32_of_bytes bs).
Definition read_double : M float := do bs <- read_bytes 8; ret (f64_of_bytes bs).

(** Modelled from the spec: [read_string(n)] reads exactly [n] bytes,
    decodes them as text and trims trailing control and pad bytes. *)
Definition read_string (n : Z) : M string :=
  do bs <- read_bytes n; ret (text_of_bytes bs).

(** [for i in range(n): xs.append(rd())] *)
Fixpoint read_many {A} (n : nat) (rd : M A) : M (list A) :=
  match n with
  | O => ret []
  | S n' => do x <- rd; do xs <- read_many n' rd; ret (x :: xs)
  end.

End BinaryReader.

(** Two ways to speak about the bytes a read takes, used in the
    statements below. *)
Section ReadWidths.
Import BinaryReader.

(** A read that returns has moved the cursor by exactly [w] bytes. *)
Definition advances {A} (w : Z) (m : M A) : Prop :=
  forall r a r', m r = Ok (a, r') -> buf r' = buf r /\ pos r' = pos r + w.

(** A read returns whenever [w] bytes are left in the buffer. *)
Definition succeeds {A} (w : Z) (m : M A) : Prop :=
  forall r, 0 <= pos r -> pos r + w <= size r ->
    exists a, m r = Ok (a, mk (buf r) (pos r + w)).

End ReadWidths.

(* ===================================================================== *)
(** ** NumPy: [np.fromfile] on the reader's file object                  *)
(* ===================================================================== *)

Module Np.
Import BinaryReader.

Inductive dtype : Set := f8 | f4 | u2.

Definition itemsize (d : dtype) : Z :=
  match d with f8 => 8 | f4 => 4 | u2 => 2 end.

(** The value of an element. A 4-byte element is a float32, held as the
    binary64 value it equals; a [u2] element is converted to binary64
    when the array is multiplied by a Python float. *)
Definition item (d : dtype) (bs : list Byte.byte) : float :=
  match d with
  | f8 => f64_of_bytes bs
  | f4 => f32_of_bytes bs
  | u2 => Py.float_of_int (le_unsigned bs)
  end.

Fixpoint chunks (n : nat) (w : nat) (bs : list Byte.byte)
  : list (list Byte.byte) :=
  match n with
  | O => []
  | S n' => take w bs :: chunks n' w (drop w bs)
  end.

(** [np.fromfile(f, dtype, count)]: reads [count] items at the current
    position of [f]; a negative [count] means all the items left. A
    file that ends before [count] items gives a shorter array of the
    complete items, not an exception, and the read has then gone to the
    end of the file, through the bytes of an incomplete last item. *)
Definition fromfile (d : dtype) (count : Z) : M (list float) := fun r =>
  let w := itemsize d in
  let avail := (size r - pos r) / w in
  let n := Z.to_nat (if count <? 0 then avail else Z.min count avail) in
  let ends_early := (0 <=? count) && (avail <? count) in
  Ok (map (item d)
        (chunks n (Z.to_nat w) (drop (Z.to_nat (pos r)) (buf r))),
      mk (buf r)
        (if ends_early then Z.max (pos r) (size r)
         else pos r + Z.of_nat n * w)).

(** *** float32 scalars

    An element of a float32 array is a float32 scalar. In a comparison
    or an operation with a Python number NumPy (version 2) converts the
    Python number to float32 and gives a float32 result. A binary32
    value is a binary64 value, and the binary32 result of one
    multiplication or division is the binary64 result rounded once
    more. *)

(** The nearest binary32 value, ties to even; beyond the binary32 range
    an infinity. *)
Definition round32 (x : float) : float :=
  match Prim2SF x with
  | S754_finite s m e => SF2Prim (binary_round 24 128 s m e)
  | _ => x
  end.

Definition lt32 (a b : float) : bool := (round32 a <? round32 b)%float.
Definition mul32 (a b : float) : float := round32 (round32 a * round32 b).
Definition div32 (a b : float) : float := round32 (round32 a / round32 b).

End Np.


(* ===================================================================== *)
(** ** entries.py: [Channel]                                             *)
(* ===================================================================== *)

(** The sample sequence of a channel: the slow path builds a list of
    Python floats; the fast path and the filter give a NumPy array, of
    float64, or of float32 for the 4-byte samples of the fast path. *)
Inductive samples : Type :=
| PyList (xs : list float)
| NdArray (xs : list float)
| NdArray32 (xs : list float).

Definition values (d : samples) : list float :=
  match d with PyList xs => xs | NdArray xs => xs | NdArray32 xs => xs end.


(** Channel objects are named by reference. *)
Definition ref : Set := nat.

Module ExtHeader.

(** The dictionary built by [readExtHeader]; its keys are fixed. *)
Record t : Type := mk {
  T0 : float; dt : float;
  SensorType : Z; SupplyVoltage : Z;
  FiltChar : Z; FiltFreq : Z;
  TareVal : float; ZeroVal : float; MeasRange : float;
  InChar : list float;
  SerNo : string; PhysUnit : string; NativeUnit : string;
  Slot : Z; SubSlot : Z; AmpType : Z; APType : Z;
  kFactor : float; bFactor : float;
  MeasSig : Z; AmpInput : Z; HPFilt : Z;
  OLImportInfo : Z; ScaleType : Z;
  SoftwareTareVal : float;
  WriteProtected : Z;
  NominalRange : float; CLCFactor : float;
  ExportFormat : Z
}.

(** [exthdr['ExportFormat'] = v] *)
Definition set_ExportFormat (v : Z) (h : t) : t :=
  mk (T0 h) (dt h) (SensorType h) (SupplyVoltage h) (FiltChar h)
     (FiltFreq h) (TareVal h) (ZeroVal h) (MeasRange h) (InChar h)
     (SerNo h) (PhysUnit h) (NativeUnit h) (Slot h) (SubSlot h)
     (AmpType h) (APType h) (kFactor h) (bFactor h) (MeasSig h)
     (AmpInput h) (HPFilt h) (OLImportInfo h) (ScaleType h)
     (SoftwareTareVal h) (WriteProtected h) (NominalRange h)
     (CLCFactor h) v.

End ExtHeader.

Module Channel.
Import BinaryReader.
Local Open Scope reader_scope.

Record t : Type := mk {
  fastload : bool;
  verbose : bool;
  filterData : bool;
  Time : option ref;          (* referenced time channel, may stay None *)
  isTime : bool;
  num : Z;
  length : Z;
  Name : string;
  fileName : string;
  fullName : string;
  unit : string;
  comment : string;
  format : Z;
  dw : Z;
  time : float;
  nHdrBytes : Z;
  extHeader : ExtHeader.t;
  precision : Z;
  lmode : Z;
  scale : Z;
  npoi : Z;
  formula : string;
  sensorInfo : string;
  broken : bool;
  data : option samples       (* None until readData has assigned it *)
}.

Definition set_data (d : option samples) (c : t) : t :=
  mk (fastload c) (verbose c) (filterData c) (Time c) (isTime c) (num c)
     (length c) (Name c) (fileName c) (fullName c) (unit c) (comment c)
     (format c) (dw c) (time c) (nHdrBytes c) (extHeader c) (precision c)
     (lmode c) (scale c) (npoi c) (formula c) (sensorInfo c) (broken c) d.

Definition set_Time (tc : option ref) (c : t) : t :=
  mk (fastload c) (verbose c) (filterData c) tc (isTime c) (num c)
     (length c) (Name c) (fileName c) (fullName c) (unit c) (comment c)
     (format c) (dw c) (time c) (nHdrBytes c) (extHeader c) (precision c)
     (lmode c) (scale c) (npoi c) (formula c) (sensorInfo c) (broken c)
     (data c).

(** The fixed field sequence of the extended header, in stream order
    (the running byte count is in the comments of the source). *)
Definition readExtFields : M ExtHeader.t :=
  do T0 <- read_double;
  do dt <- read_double;
  do SensorType <- read_int16;
  do SupplyVoltage <- read_int16;
  do FiltChar <- read_int16;
  do FiltFreq <- read_int16;
  do TareVal <- read_float;
  do ZeroVal <- read_float;
  do MeasRange <- read_float;
  do InChar <- read_many 4 read_float;
  do SerNo <- read_string 32;
  do PhysUnit <- read_string 8;
  do NativeUnit <- read_string 8;
  do Slot <- read_int16;
  do SubSlot <- read_int16;
  do AmpType <- read_int16;
  do APType <- read_int16;
  do kFactor <- read_float;
  do bFactor <- read_float;
  do MeasSig <- read_int16;
  do AmpInput <- read_int16;
  do HPFilt <- read_int16;
  do OLImportInfo <- read_byte;
  do ScaleType <- read_byte;
  do SoftwareTareVal <- read_float;
  do WriteProtected <- read_byte;
  do padding <- read_string 3;
  do NominalRange <- read_float;
  do CLCFactor <- read_float;
  do ExportFormat <- read_byte;
  do reserve <- read_string 7;
  ret (ExtHeader.mk T0 dt SensorType SupplyVoltage FiltChar FiltFreq
         TareVal ZeroVal MeasRange InChar SerNo PhysUnit NativeUnit
         Slot SubSlot AmpType APType kFactor bFactor MeasSig AmpInput
         HPFilt OLImportInfo ScaleType SoftwareTareVal WriteProtected
         NominalRange CLCFactor ExportFormat).

(** [Channel.readExtHeader]; [nHdrBytes] is [self.nHdrBytes]. The
    warning it prints on a length mismatch is not part of the state. *)
Definition readExtHeader (nHdrBytes : Z) : M ExtHeader.t :=
  do pos0 <- tell;
  do exthdr <- readExtFields;
  do posN <- tell;
  if negb (posN - pos0 =? nHdrBytes) then
    do _ <- seek (pos0 + nHdrBytes);
    ret (ExtHeader.set_ExportFormat 0 exthdr)
  else ret exthdr.

(** [precDict = {0:8, 1:4, 2:2}] *)
Definition precDict (k : Z) : option Z :=
  if k =? 0 then Some 8
  else if k =? 1 then Some 4
  else if k =? 2 then Some 2
  else None.

(** The [try: ... except KeyError:] around the lookup. *)
Definition resolve_precision (h : ExtHeader.t) : Z :=
  match precDict (ExtHeader.ExportFormat h) with
  | Some p => p
  | None => 8
  end.

(** [Channel.__init__] *)
Definition init (fileName : string) (verbose filterData fastload : bool)
  : M t :=
  do num <- read_int16;
  do length <- read_int32;
  do n <- read_int16;
  do Name <- read_string n;
  let fileName' := Py.stem fileName in
  let tName := Py.replace_space Name in
  let fullName := (fileName ++ "." ++ tName)%string in
  do n <- read_int16;
  do unit <- read_string n;
  do n <- read_int16;
  do comment <- read_string n;
  do format <- read_int16;
  do dw <- read_int16;
  do time <- read_double;
  do nHdrBytes <- read_int32;
  do extHeader <- readExtHeader nHdrBytes;
  let precision := resolve_precision extHeader in
  do lmode <- read_char;
  do scale <- read_char;
  do npoi <- read_byte;
  do _ <- read_many (Z.to_nat npoi) read_double;
  do _ <- read_int16;
  do n <- read_int16;
  do formula <- read_string n;
  do n <- read_int32;
  do sensorInfo <- read_string n;
  ret (mk fastload verbose filterData None false num length Name
         fileName' fullName unit comment format dw time nHdrBytes
         extHeader precision lmode scale npoi formula sensorInfo
         false None).

Section WithSciPy.

(** The values of [scipy.signal.lfilter(b, a, x)] for a scalar [a] and
    a sequence [x] that is not empty. *)
Variable lfilter : list float -> float -> list float -> list float.

(** [scipy.signal.lfilter(b, a, x)]: an empty [x] is refused with a
    [ValueError]; the result is a float64 array. *)
Definition signal_lfilter (b : list float) (a : float) (x : list float)
  : result samples :=
  match x with
  | [] => Err ValueError
  | _ => Ok (NdArray (lfilter b a x))
  end.

(** [Channel.filter], called with its default mode ['lfilt']. *)
Definition filter (c : t) : result samples :=
  let n := 50%nat in
  let b := repeat (1.0 / 50)%float n in
  let a := 1%float in
  match data c with
  | None => Err AttributeError
  | Some d => signal_lfilter b a (values d)
  end.

(** [Channel.readData]: decodes the body at the current position of
    the reader. *)
Definition readData (c : t) : M t :=
  if broken c then ret c
  else
    do d <-
      (if fastload c then
         if (precision c =? 8) || (precision c =? 4) then
           do xs <- Np.fromfile (if precision c =? 8 then Np.f8 else Np.f4)
                      (length c);
           ret (Some (if precision c =? 8 then NdArray xs else NdArray32 xs))
         else if precision c =? 2 then
           do MinValue <- read_double;
           do MaxValue <- read_double;
           let sf := ((MaxValue - MinValue) / 32767)%float in
           do raw <- Np.fromfile Np.u2 (length c);
           ret (Some (NdArray
                        (map (fun v => (v * sf + MinValue)%float) raw)))
         else ret (data c)
       else
         if precision c =? 8 then
           do xs <- read_many (Z.to_nat (length c)) read_double;
           ret (Some (PyList xs))
         else if precision c =? 4 then
           do xs <- read_many (Z.to_nat (length c)) read_float;
           ret (Some (PyList xs))
         else if precision c =? 2 then
           do MinValue <- read_double;
           do MaxValue <- read_double;
           let sf := ((MaxValue - MinValue) / 32767)%float in
           do xs <- read_many (Z.to_nat (length c))
                      (do v <- read_int16;
                       ret (Py.float_of_int v * sf + MinValue)%float);
           ret (Some (PyList xs))
         else ret (Some (PyList [])));
    let c' := set_data d c in
    if filterData c' then
      match filter c' with
      | Ok d' => ret (set_data (Some d') c')
      | Err e => raise e
      end
    else ret c'.

(** The last step of [readData] on its own: [self.data] is assigned and
    the filter, when it is on, replaces it. *)
Definition store_data (c : t) (d : option samples) : M t :=
  let c' := set_data d c in
  if filterData c' then
    match filter c' with
    | Ok d' => ret (set_data (Some d') c')
    | Err e => raise e
    end
  else ret c'.

End WithSciPy.

(** [self.data[key]] *)
Definition getitem (c : t) (key : nat) : result float :=
  match data c with
  | None => Err AttributeError
  | Some d =>
      match values d !! key with
      | Some x => Ok x
      | None => Err IndexError
      end
  end.

(** The same channel with the other value of the [fastload] argument. *)
Definition set_fastload (b : bool) (c : t) : t :=
  mk b (verbose c) (filterData c) (Time c) (isTime c) (num c)
     (length c) (Name c) (fileName c) (fullName c) (unit c) (comment c)
     (format c) (dw c) (time c) (nHdrBytes c) (extHeader c) (precision c)
     (lmode c) (scale c) (npoi c) (formula c) (sensorInfo c) (broken c)
     (data c).

(** The body in the words of the specification, as a function of the
    bytes at the cursor: for precision 8 or 4, [length] contiguous floats
    of that width; for precision 2, the two 8-byte floats MinValue and
    MaxValue, the scale factor [(MaxValue - MinValue) / 32767], then
    [length] unsigned 16-bit integers [v], each mapped to
    [v * sf + MinValue]. *)
Definition spec_body (c : t) (r : BinaryReader.t) : list float :=
  let n := Z.to_nat (length c) in
  let rest := drop (Z.to_nat (pos r)) (buf r) in
  if precision c =? 2 then
    let MinValue := f64_of_bytes (take 8 rest) in
    let MaxValue := f64_of_bytes (take 8 (drop 8 rest)) in
    let sf := ((MaxValue - MinValue) / 32767)%float in
    map (fun bs => (Py.float_of_int (le_unsigned bs) * sf + MinValue)%float)
      (Np.chunks n 2 (drop 16 rest))
  else if precision c =? 4 then map f32_of_bytes (Np.chunks n 4 rest)
  else map f64_of_bytes (Np.chunks n 8 rest).

(** The bytes of the body: the samples, and for precision 2 the two
    calibration values before them. *)
Definition body_size (c : t) : Z :=
  if precision c =? 2 then 16 + 2 * length c else precision c * length c.

(** The raw 16-bit samples of a precision-2 body. *)
Definition raw_samples (c : t) (r : BinaryReader.t) : list (list Byte.byte) :=
  Np.chunks (Z.to_nat (length c)) 2
    (drop 16 (drop (Z.to_nat (pos r)) (buf r))).

(** What [readData] leaves in [self.data] for the decoded values [xs]:
    the values themselves, or the filtered ones. *)
Definition stored_values
    (lfilter : list float -> float -> list float -> list float)
    (c : t) (xs : list float) : list float :=
  if filterData c then lfilter (repeat (1.0 / 50)%float 50) 1%float xs
  else xs.

End Channel.

(* ===================================================================== *)
(** ** entries.py: [Group]                                               *)
(* ===================================================================== *)

(** The channel objects of a file, by reference. *)
Definition store : Type := ref -> Channel.t.

Declare Scope result_scope.
Delimit Scope result_scope with result.
Notation "'do' x <- m ; k" := (rbind m (fun x => k))
  (at level 10, x name, m at level 100, k at level 200) : result_scope.

Module Group.
Local Open Scope result_scope.

Record t : Type := mk {
  verbose : bool;
  Channels : list ref;
  Name : string;
  ChannelX : option ref;
  ChannelsY : list ref;
  intervalstr : string;
  interval : float;
  frequency : float;
  fileName : string;
  fullName : string
}.

(** Reading an attribute that [__init__] may not have assigned. *)
Definition getattr {A} (a : option A) : result A :=
  match a with Some v => Ok v | None => Err AttributeError end.

(** A sample and a Python number are compared, multiplied and divided
    in the number type of the sample: binary64 for a Python float and
    for an element of a float64 array, binary32 for an element of a
    float32 array. *)
Definition lt (d : samples) (a b : float) : bool :=
  match d with
  | NdArray32 _ => Np.lt32 a b
  | PyList _ | NdArray _ => (a <? b)%float
  end.

Definition mul (d : samples) (a b : float) : float :=
  match d with
  | NdArray32 _ => Np.mul32 a b
  | PyList _ | NdArray _ => (a * b)%float
  end.

Definition div (d : samples) (a b : float) : float :=
  match d with
  | NdArray32 _ => Np.div32 a b
  | PyList _ | NdArray _ => (a / b)%float
  end.

(** The three threshold tests on the second time sample, each one
    overwriting the unit and factor chosen so far; [below] is the
    comparison [<] of the sample's number type. *)
Definition infer_unit_by (below : float -> float -> bool) (x : float)
  : string * float :=
  let unit := "s"%string in
  let fac := 1%float in
  let '(unit, fac) :=
    if below x 1%float then ("ms"%string, 1e3%float) else (unit, fac) in
  let '(unit, fac) :=
    if below x 1e-3%float then ("ns"%string, 1e6%float) else (unit, fac) in
  let '(unit, fac) :=
    if below x 1e-6%float then ("μs"%string, 1e9%float) else (unit, fac) in
  (unit, fac).

(** The tests on a Python float or a float64 sample. *)
Definition infer_unit (x : float) : string * float :=
  infer_unit_by PrimFloat.ltb x.


(** [1 / x]: a Python float raises on zero, a NumPy scalar gives an
    infinity or a NaN. *)
Definition reciprocal (d : samples) (x : float) : result float :=
  match d with
  | PyList _ => Py.truediv 1 x
  | NdArray _ => Ok (1 / x)%float
  | NdArray32 _ => Ok (Np.div32 1 x)
  end.

(** [Group.__init__]. The message printed under [verbose] is not part
    of the state. *)
Definition init (st : store) (channels : list ref) (fileName : string)
    (verbose : bool) : result t :=
  let timeC := List.find (fun x => Channel.isTime (st x)) channels in
  let ChannelX := timeC in
  let Name :=
    match timeC with
    | None => None
    | Some tc => Some (Channel.Name (st tc))
    end in
  let fileName' := Py.stem fileName in
  do name <- getattr Name;
  let tName := Py.replace_space name in
  let fullName := (fileName ++ "." ++ tName)%string in
  let ChannelsY :=
    List.filter (fun chan => negb (Channel.isTime (st chan))) channels in
  do tc <- getattr timeC;
  do x <- Channel.getitem (st tc) 1;
  do d <- getattr (Channel.data (st tc));
  let '(unit, fac) := infer_unit_by (lt d) x in
  let intervalstr := (Py.format_3f (mul d x fac) ++ unit)%string in
  let interval := div d x 1e3 in
  do frequency <- reciprocal d x;
  Ok (mk verbose channels name ChannelX ChannelsY intervalstr interval
        frequency fileName' fullName).

End Group.

(** The group that [Group.__init__] builds from the time channel [tc]
    whose samples are [d], with the second sample [x]. *)
Definition group_for (st : store) (channels : list ref) (fileName : string)
    (verbose : bool) (tc : ref) (d : samples) (x f : float) : Group.t :=
  Group.mk verbose channels (Channel.Name (st tc)) (Some tc)
    (List.filter (fun chan => negb (Channel.isTime (st chan))) channels)
    (Py.format_3f (Group.mul d x (snd (Group.infer_unit_by (Group.lt d) x)))
     ++ fst (Group.infer_unit_by (Group.lt d) x))%string
    (Group.div d x 1e3) f (Py.stem fileName)
    (fileName ++ "." ++ Py.replace_space (Channel.Name (st tc)))%string.

(** The same for Python floats and float64 samples. *)
Definition group_of (st : store) (channels : list ref) (fileName : string)
    (verbose : bool) (tc : ref) (x f : float) : Group.t :=
  Group.mk verbose channels (Channel.Name (st tc)) (Some tc)
    (List.filter (fun chan => negb (Channel.isTime (st chan))) channels)
    (Py.format_3f (x * snd (Group.infer_unit x))%float
     ++ fst (Group.infer_unit x))%string
    (x / 1e3)%float f (Py.stem fileName)
    (fileName ++ "." ++ Py.replace_space (Channel.Name (st tc)))%string.

(* ===================================================================== *)
(** ** Linking channels to their time channel                            *)
(* ===================================================================== *)

Module GroupLinker.
Local Open Scope result_scope.

(** Modelled from the spec: the step that gives the channels of a
    partition their back-reference is in the parser (apreader.py), which
    is not among the sources. Within a partition the first channel
    flagged as time is the reference, and every channel that is not
    flagged receives it (or none, when no channel is flagged). *)
Definition connect (st : store) (channels : list ref) : store :=
  let timeC := List.find (fun x => Channel.isTime (st x)) channels in
  fun r =>
    if bool_decide (r ∈ channels) && negb (Channel.isTime (st r))
    then Channel.set_Time timeC (st r)
    else st r.

(** Modelled from the spec: one partition is linked, then its [Group]
    is constructed over the same channel objects. *)
Definition link (st : store) (channels : list ref) (fileName : string)
    (verbose : bool) : result (store * Group.t) :=
  let st' := connect st channels in
  do g <- Group.init st' channels fileName verbose;
  Ok (st', g).

End GroupLinker.

(* ===================================================================== *)
(** ** Concrete inputs used by the examples                              *)
(* ===================================================================== *)

Module Inputs.

Definition zeros (n : nat) : list Byte.byte := repeat Byte.x00 n.

(** The extended header decoded from 148 zero bytes. *)
Definition blank_header : ExtHeader.t :=
  ExtHeader.mk 0 0 0 0 0 0 0 0 0 [0; 0; 0; 0]%float "" "" "" 0 0 0 0 0 0
    0 0 0 0 0 0 0 0 0 0.

(** A decoded channel as [Channel.__init__] leaves it, with the flag
    [isTime] and the samples set by the later stages. *)
Definition channel (isTime fastload : bool) (Name : string)
    (precision length : Z) (data : option samples) : Channel.t :=
  Channel.mk fastload false false None isTime 0 length Name "unknown"
    ("unknown." ++ Py.replace_space Name)%string "" "" 0 0 0%float 148
    blank_header precision 0 0 0 "" "" false data.

(** A store with the given objects at references 0, 1, ... *)
Definition store_of (cs : list Channel.t) : store :=
  fun r => nth r cs (channel false true "" 8 0 None).

(** A channel record: index 1, length 3, name "Time 1", unit "s", no
    comment, a 148-byte extended header of zeros, no calibration
    points, empty formula and sensor information. *)
Definition record_bytes : list Byte.byte :=
  [Byte.x01; Byte.x00] ++ [Byte.x03; Byte.x00; Byte.x00; Byte.x00]
  ++ [Byte.x06; Byte.x00] ++ list_byte_of_string "Time 1"
  ++ [Byte.x01; Byte.x00] ++ list_byte_of_string "s"
  ++ [Byte.x00; Byte.x00]
  ++ zeros 2 ++ zeros 2 ++ zeros 8
  ++ [Byte.x94; Byte.x00; Byte.x00; Byte.x00]
  ++ zeros 148
  ++ zeros 1 ++ zeros 1 ++ zeros 1 ++ zeros 2 ++ zeros 2 ++ zeros 4.

(** A 2-byte precision body: MinValue 0.0, MaxValue 32767.0 (scale
    factor 1), then the raw samples 0x0001 and 0x8000. *)
Definition body_high_bit : list Byte.byte :=
  zeros 8
  ++ [Byte.x00; Byte.x00; Byte.x00; Byte.x00;
      Byte.xc0; Byte.xff; Byte.xdf; Byte.x40]
  ++ [Byte.x01; Byte.x00] ++ [Byte.x00; Byte.x80].

(** A 2-byte precision body: MinValue 0.0, MaxValue 100.0, then the
    raw samples 0 and 32767. *)
Definition body_edges : list Byte.byte :=
  zeros 8
  ++ [Byte.x00; Byte.x00; Byte.x00; Byte.x00;
      Byte.x00; Byte.x00; Byte.x59; Byte.x40]
  ++ [Byte.x00; Byte.x00] ++ [Byte.xff; Byte.x7f].

(** A partition without a time channel: one data channel. *)
Definition st_no_time : store :=
  store_of [channel false true "Force" 8 3 (Some (NdArray [1; 2; 3]%float))].

(** A partition whose time channel has a single sample. *)
Definition st_short : store :=
  store_of [channel true true "Time" 8 1 (Some (NdArray [0]%float));
            channel false true "Force" 8 1 (Some (NdArray [5]%float))].

(** A partition sampled every 0.0005: the time channel and two data
    channels of the same length. *)
Definition st_half_ms : store :=
  store_of [channel true true "Time 1" 8 3
              (Some (NdArray [0; 0.0005; 0.001]%float));
            channel false true "Force" 8 3 (Some (NdArray [5; 6; 7]%float));
            channel false false "Path" 8 3 (Some (PyList [1; 2; 3]%float))].

(** SciPy is not exercised by the examples: filtering is off in them. *)
Definition no_filter (b : list float) (a : float) (x : list float)
  : list float := x.

End Inputs.

(* ===================================================================== *)
(** ** Reads and the bounds of the buffer                                *)
(* ===================================================================== *)

Section ReadBounds.
Import BinaryReader.

(** A read that returns has taken [w] bytes, and when [w] is positive
    these bytes were inside the buffer. *)
Definition takes {A} (w : Z) (m : M A) : Prop :=
  forall r a r', m r = Ok (a, r') ->
    buf r' = buf r /\ pos r' = pos r + w
    /\ (0 < w -> 0 <= pos r /\ pos r' <= size r).

(** A read that returns leaves the same buffer and a cursor inside it. *)
Definition lands {A} (m : M A) : Prop :=
  forall r a r', m r = Ok (a, r') ->
    buf r' = buf r /\ 0 <= pos r' <= size r.

(** A read that returns leaves the same buffer. *)
Definition keeps_buffer {A} (m : M A) : Prop :=
  forall r a r', m r = Ok (a, r') -> buf r' = buf r.

End ReadBounds.

(* ===================================================================== *)
(** ** More concrete inputs                                              *)
(* ===================================================================== *)

Module Samples.
Import Inputs.

(** The channel that [Channel.__init__] decodes from [record_bytes] for
    the file name "run1", and the cursor behind the record. *)
Definition decoded_record : Channel.t :=
  Channel.mk true false false None false 1 3 "Time 1" "run1" "run1.Time_1"
    "s" "" 0 0 0%float 148 blank_header 8 0 0 0 "" "" false None.

Definition record_end : BinaryReader.t := BinaryReader.mk record_bytes 194.

(** The same record with a declared extended-header length of 150: the
    148 bytes of the field sequence, holding export format 2, and two
    more bytes before the rest of the record. *)
Definition long_header_bytes : list Byte.byte :=
  [Byte.x01; Byte.x00] ++ [Byte.x03; Byte.x00; Byte.x00; Byte.x00]
  ++ [Byte.x06; Byte.x00] ++ list_byte_of_string "Time 1"
  ++ [Byte.x01; Byte.x00] ++ list_byte_of_string "s"
  ++ [Byte.x00; Byte.x00]
  ++ zeros 2 ++ zeros 2 ++ zeros 8
  ++ [Byte.x96; Byte.x00; Byte.x00; Byte.x00]
  ++ zeros 140 ++ [Byte.x02] ++ zeros 7 ++ zeros 2
  ++ zeros 1 ++ zeros 1 ++ zeros 1 ++ zeros 2 ++ zeros 2 ++ zeros 4.

Definition decoded_long_header : Channel.t :=
  Channel.mk true false false None false 1 3 "Time 1" "run1" "run1.Time_1"
    "s" "" 0 0 0%float 150 blank_header 8 0 0 0 "" "" false None.

(** A file: the record above followed by its body of three 8-byte
    samples. *)
Definition file_bytes : list Byte.byte := record_bytes ++ zeros 24.

(** A partition with two flagged channels: a data channel, two time
    channels and another data channel. *)
Definition st_two_clocks : store :=
  store_of [channel false true "Force" 8 2 (Some (NdArray [5; 6]%float));
            channel true true "Time A" 8 2 (Some (NdArray [0; 0.5]%float));
            channel true true "Time B" 8 2 (Some (NdArray [0; 0.25]%float));
            channel false true "Path" 8 2 (Some (NdArray [1; 2]%float))].

(** A partition whose time channel does not advance: NumPy samples. *)
Definition st_still : store :=
  store_of [channel true true "Time" 8 2 (Some (NdArray [0; 0]%float));
            channel false true "Force" 8 2 (Some (NdArray [5; 6]%float))].

(** Two linked channels of declared length 3: the time channel and a
    data channel that refers to it. *)
Definition st_linked : store :=
  store_of [channel true true "Time 1" 8 3
              (Some (NdArray [0; 0.0005; 0.001]%float));
            Channel.set_Time (Some 0%nat)
              (channel false false "Path" 8 3 (Some (PyList [1; 2; 3]%float)))].

(** A body of 8-byte samples cut short: 1.0, 2.0 and the first four
    bytes of a third sample. *)
Definition body_cut : list Byte.byte :=
  (zeros 6 ++ [Byte.xf0; Byte.x3f])
  ++ (zeros 6 ++ [Byte.x00; Byte.x40])
  ++ zeros 4.

(** A channel of declared length 3 that holds two samples. *)
Definition short_channel : Channel.t :=
  channel false true "U" 8 3 (Some (NdArray [0; 0]%float)).

(** A rendering of samples for the examples. *)
Definition no_text (c : Channel.t) (x : float) : string := "x".
Definition no_json (x : float) : string := "x".

End Samples.

(* ===================================================================== *)
(** ** entries.py: indexing and text export                              *)
(* ===================================================================== *)

(** The exceptions of these methods: those of the decoder, the type
    error of an object that does not support the operation, and the
    [Exception("Unknown mode: ...")] of the export. *)
Inductive pyexc : Type :=
| Raised (e : pyerr)
| TypeError
| UnknownMode (mode : string).

Inductive outcome (A : Type) : Type :=
| Returns (a : A)
| Raises (e : pyexc).
Arguments Returns {A} a.
Arguments Raises {A} e.

Definition obind {A B} (o : outcome A) (k : A -> outcome B) : outcome B :=
  match o with Returns a => k a | Raises e => Raises e end.

Definition of_result {A} (r : result A) : outcome A :=
  match r with Ok a => Returns a | Err e => Raises (Raised e) end.

Declare Scope outcome_scope.
Delimit Scope outcome_scope with outcome.
Notation "'do' x <- m ; k" := (obind m (fun x => k))
  (at level 10, x name, m at level 100, k at level 200) : outcome_scope.

Module Methods.
Local Open Scope outcome_scope.

(** [xs[key]] for an integer key: a negative key counts from the end. *)
Definition py_index {A} (xs : list A) (key : Z) : result A :=
  let n := Z.of_nat (Datatypes.length xs) in
  let i := if key <? 0 then key + n else key in
  if (0 <=? i) && (i <? n) then
    match xs !! Z.to_nat i with
    | Some x => Ok x
    | None => Err IndexError
    end
  else Err IndexError.

(** [Channel.__getitem__] *)
Definition Channel_getitem (c : Channel.t) (key : Z) : result float :=
  match Channel.data c with
  | None => Err AttributeError
  | Some d => py_index (values d) key
  end.

(** [[f(x) for x in xs]], stopping at the first exception. *)
Fixpoint collect {A B} (f : A -> outcome B) (xs : list A) : outcome (list B) :=
  match xs with
  | [] => Returns []
  | x :: r => do y <- f x; do ys <- collect f r; Returns (y :: ys)
  end.

(** [Group.__getitem__] *)
Definition Group_getitem (st : store) (g : Group.t) (key : Z)
  : outcome (float * list float) :=
  match Group.ChannelX g with
  | None => Raises TypeError
  | Some tc =>
      do x <- of_result (Channel_getitem (st tc) key);
      do ys <- collect (fun chan => of_result (Channel_getitem (st chan) key))
                 (Group.ChannelsY g);
      Returns (x, ys)
  end.

Definition TAB : string := String (ascii_of_nat 9) EmptyString.
Definition NL : string := String (ascii_of_nat 10) EmptyString.
Definition QUOTE : string := String (ascii_of_nat 34) EmptyString.

Section WithText.

(** The text of one sample of a channel in an f-string. It depends on
    the number type of the samples (Python float, NumPy float64 or
    float32), which the channel determines. *)
Variable str_sample : Channel.t -> float -> string.

(** The text of a Python float in JSON. *)
Variable json_float : float -> string.

(** [json.dumps(data, indent=4)] for a dictionary from names to sample
    sequences: a NumPy array is not serializable. *)
Definition json_list (xs : list float) : string :=
  match xs with
  | [] => "[]"%string
  | _ =>
      ("[" ++ NL
       ++ String.concat ("," ++ NL)
            (map (fun x => "        " ++ json_float x) xs)
       ++ NL ++ "    ]")%string
  end.

Definition is_ndarray (d : samples) : bool :=
  match d with NdArray _ | NdArray32 _ => true | PyList _ => false end.

Definition json_dumps (items : list (string * samples)) : outcome string :=
  if existsb (fun item => is_ndarray (snd item)) items then Raises TypeError
  else
    Returns
      match items with
      | [] => "{}"%string
      | _ =>
          ("{" ++ NL
           ++ String.concat ("," ++ NL)
                (map (fun item =>
                        "    " ++ QUOTE ++ fst item ++ QUOTE ++ ": "
                        ++ json_list (values (snd item))) items)
           ++ NL ++ "}")%string
      end.

(** One line of [Channel.getas] in CSV mode: the time sample, when the
    channel has a time channel, a tab, the sample and a line feed. *)
Definition Channel_csv_row (st : store) (c : Channel.t) (i : nat)
  : outcome string :=
  do tx <- match Channel.Time c with
           | Some tc =>
               do x <- of_result (Channel.getitem (st tc) i);
               Returns (str_sample (st tc) x)
           | None => Returns ""%string
           end;
  do y <- of_result (Channel.getitem c i);
  Returns (tx ++ TAB ++ str_sample c y ++ NL)%string.

(** [Channel.getas]; [None] is the bare [return]. *)
Definition Channel_getas (st : store) (c : Channel.t) (mode : string)
  : outcome (option string) :=
  if Channel.isTime c then Returns None
  else if Channel.length c =? 0 then Returns None
  else
    let length := Channel.length c in
    if String.eqb mode "csv" then
      do rows <- collect (Channel_csv_row st c) (seq 0 (Z.to_nat length));
      Returns (Some (String.concat "" rows))
    else if String.eqb mode "json" then
      do x <- match Channel.Time c with
              | Some tc =>
                  do d <- of_result (Group.getattr (Channel.data (st tc)));
                  Returns [("X"%string, d)]
              | None => Returns []
              end;
      do y <- of_result (Group.getattr (Channel.data c));
      do content <- json_dumps (x ++ [("Y"%string, y)]);
      Returns (Some content)
    else Raises (UnknownMode mode).

(** One line of [Group.getas] in CSV mode. *)
Definition Group_csv_row (st : store) (g : Group.t) (i : nat)
  : outcome string :=
  do tc <- of_result (Group.getattr (Group.ChannelX g));
  do x <- of_result (Channel.getitem (st tc) i);
  do ys <- collect (fun chan =>
                      do y <- of_result (Channel.getitem (st chan) i);
                      Returns (TAB ++ str_sample (st chan) y)%string)
             (Group.ChannelsY g);
  Returns (str_sample (st tc) x ++ String.concat "" ys ++ NL)%string.

(** [Group.getas] *)
Definition Group_getas (st : store) (g : Group.t) (mode : string)
  : outcome string :=
  let length_x := Datatypes.length (Group.ChannelsY g) in
  do length <- match Group.ChannelX g with
               | Some tc =>
                   do d <- of_result (Group.getattr (Channel.data (st tc)));
                   Returns (Datatypes.length (values d))
               | None =>
                   if (0 <? length_x)%nat then Raises TypeError
                   else Returns 0%nat
               end;
  if String.eqb mode "csv" then
    do rows <- collect (Group_csv_row st g) (seq 0 length);
    Returns (String.concat "" rows)
  else if String.eqb mode "json" then
    do x <- match Group.ChannelX g with
            | Some tc =>
                do d <- of_result (Group.getattr (Channel.data (st tc)));
                Returns [("X"%string, d)]
            | None => Returns []
            end;
    do ys <- collect (fun j =>
                        do chan <- of_result
                                     (Group.getattr (Group.ChannelsY g !! j));
                        do d <- of_result
                                  (Group.getattr (Channel.data (st chan)));
                        Returns (("Y" ++ Py.decimal (Z.of_nat j))%string, d))
               (seq 0 length_x);
    json_dumps (x ++ ys)
  else Raises (UnknownMode mode).

End WithText.

End Methods.

(* ===================================================================== *)
(** * Properties                                                         *)
(* ===================================================================== *)

Import BinaryReader.

(** ** The cursor *)

Lemma read_bytes_ok (n : Z) (r : t) :
  0 <= n -> 0 <= pos r -> pos r + n <= size r ->
  read_bytes n r
  = Ok (take (Z.to_nat n) (drop (Z.to_nat (pos r)) (buf r)),
        mk (buf r) (pos r + n)).
Proof.
  intros Hn Hp Hs. unfold read_bytes.
  destruct (0 <=? n) eqn:E1; [|lia].
  destruct (0 <=? pos r) eqn:E2; [|lia].
  destruct (pos r + n <=? size r) eqn:E3; [|lia].
  reflexivity.
Qed.

Lemma read_bytes_inv (n : Z) (r r' : t) (bs : list Byte.byte) :
  read_bytes n r = Ok (bs, r') ->
  buf r' = buf r /\ pos r' = pos r + n /\ 0 <= n /\ 0 <= pos r
  /\ pos r + n <= size r.
Proof.
  unfold read_bytes.
  destruct (0 <=? n) eqn:E1; [|discriminate].
  destruct (0 <=? pos r) eqn:E2; [|discriminate].
  destruct (pos r + n <=? size r) eqn:E3; [|discriminate].
  simpl. intros H. injection H as _ <-. simpl.
  repeat split; try reflexivity; lia.
Qed.

Lemma advances_ret {A} (a : A) : advances 0 (ret a).
Proof.
  intros r x r'. unfold ret. intros H. injection H as _ <-.
  split; [reflexivity | lia].
Qed.

Lemma advances_bind {A B} (w1 w2 w : Z) (m : M A) (k : A -> M B) :
  advances w1 m -> (forall a, advances w2 (k a)) -> w = w1 + w2 ->
  advances w (bind m k).
Proof.
  intros Hm Hk -> r b r'. unfold bind.
  destruct (m r) as [[a r1]|e] eqn:E; [|discriminate].
  intros H. apply Hm in E. apply Hk in H.
  destruct E as [Eb Ep]. destruct H as [Hb Hp].
  split; [congruence | lia].
Qed.

Lemma advances_read_bytes (n : Z) : advances n (read_bytes n).
Proof.
  intros r bs r' H. apply read_bytes_inv in H. tauto.
Qed.

Lemma succeeds_ret {A} (a : A) : succeeds 0 (ret a).
Proof.
  intros r _ _. exists a. unfold ret. destruct r as [b p]. simpl.
  do 3 f_equal. lia.
Qed.

Lemma succeeds_bind {A B} (w1 w2 w : Z) (m : M A) (k : A -> M B) :
  0 <= w1 -> 0 <= w2 -> w = w1 + w2 ->
  succeeds w1 m -> (forall a, succeeds w2 (k a)) ->
  succeeds w (bind m k).
Proof.
  intros H1 H2 -> Hm Hk r Hp Hs. unfold bind.
  destruct (Hm r) as [a Ea]; [lia | lia |]. rewrite Ea.
  destruct (Hk a (mk (buf r) (pos r + w1))) as [b Eb];
    [simpl; lia | unfold size in *; simpl; lia |].
  exists b. rewrite Eb. simpl. do 3 f_equal. lia.
Qed.

Lemma succeeds_read_bytes (n : Z) : 0 <= n -> succeeds n (read_bytes n).
Proof.
  intros Hn r Hp Hs. eexists. apply read_bytes_ok; lia.
Qed.

(** The typed reads, with their widths. *)
Ltac read_width :=
  repeat first
    [ apply advances_read_bytes
    | apply advances_ret
    | eapply advances_bind; [ | intros ? | ] ];
  try reflexivity; try lia.

(** Walks a chain of binds; [prim] closes the goal of each single read. *)
Ltac read_total prim :=
  lazymatch goal with
  | |- succeeds _ (ret _) => apply succeeds_ret
  | |- succeeds _ (bind _ _) =>
      eapply succeeds_bind; [ | | | prim | intros ?; read_total prim ];
      [ lia | lia | first [ reflexivity | lia ] ]
  end.

Lemma advances_read_byte : advances 1 read_byte.
Proof. unfold read_byte. read_width. Qed.
Lemma advances_read_char : advances 1 read_char.
Proof. unfold read_char. read_width. Qed.
Lemma advances_read_int16 : advances 2 read_int16.
Proof. unfold read_int16. read_width. Qed.
Lemma advances_read_int32 : advances 4 read_int32.
Proof. unfold read_int32. read_width. Qed.
Lemma advances_read_float : advances 4 read_float.
Proof. unfold read_float. read_width. Qed.
Lemma advances_read_double : advances 8 read_double.
Proof. unfold read_double. read_width. Qed.
Lemma advances_read_string (n : Z) : advances n (read_string n).
Proof. unfold read_string. read_width. Qed.

Lemma advances_read_many {A} (n : nat) (w : Z) (rd : M A) :
  advances w rd -> advances (Z.of_nat n * w) (read_many n rd).
Proof.
  intros Hrd. induction n as [|n IH]; cbn [read_many].
  - apply advances_ret.
  - eapply advances_bind; [exact Hrd | intros x | ].
    + eapply advances_bind; [exact IH | intros xs; apply advances_ret | ].
      reflexivity.
    + lia.
Qed.

Lemma succeeds_read_many {A} (n : nat) (w : Z) (rd : M A) :
  0 <= w -> succeeds w rd -> succeeds (Z.of_nat n * w) (read_many n rd).
Proof.
  intros Hw Hrd. induction n as [|n IH]; cbn [read_many].
  - apply succeeds_ret.
  - eapply succeeds_bind with (w1 := w) (w2 := Z.of_nat n * w);
      [lia | lia | lia | exact Hrd | intros x ].
    eapply succeeds_bind with (w1 := Z.of_nat n * w) (w2 := 0);
      [lia | lia | lia | exact IH | intros xs; apply succeeds_ret ].
Qed.

(** ** The extended header *)

(** The field sequence of the extended header is 148 bytes long. *)
Lemma readExtFields_consumes :
  advances 148 Channel.readExtFields.
Proof.
  unfold Channel.readExtFields.
  repeat first
    [ apply advances_ret
    | eapply advances_bind;
      [ first [ apply advances_read_double | apply advances_read_float
              | apply advances_read_int16 | apply advances_read_byte
              | apply advances_read_string
              | apply (advances_read_many 4 4), advances_read_float ]
      | intros ? | ] ];
  try reflexivity.
Qed.

Lemma succeeds_read_byte : succeeds 1 read_byte.
Proof. unfold read_byte. read_total ltac:(apply succeeds_read_bytes; lia). Qed.
Lemma succeeds_read_int16 : succeeds 2 read_int16.
Proof. unfold read_int16. read_total ltac:(apply succeeds_read_bytes; lia). Qed.
Lemma succeeds_read_float : succeeds 4 read_float.
Proof. unfold read_float. read_total ltac:(apply succeeds_read_bytes; lia). Qed.
Lemma succeeds_read_double : succeeds 8 read_double.
Proof. unfold read_double. read_total ltac:(apply succeeds_read_bytes; lia). Qed.
Lemma succeeds_read_string (n : Z) : 0 <= n -> succeeds n (read_string n).
Proof.
  intros Hn. unfold read_string.
  read_total ltac:(apply succeeds_read_bytes; lia).
Qed.

(** With 148 bytes left the field sequence is read to its end. *)
Lemma readExtFields_total :
  succeeds 148 Channel.readExtFields.
Proof.
  unfold Channel.readExtFields.
  read_total
    ltac:(first [ apply succeeds_read_double | apply succeeds_read_float
                | apply succeeds_read_int16 | apply succeeds_read_byte
                | apply succeeds_read_string; lia
                | apply (succeeds_read_many 4 4);
                  [ lia | apply succeeds_read_float ] ]).
Qed.

(** C3, as amended. When the bytes consumed by the field sequence differ
    from the declared [nHdrBytes] and [start + nHdrBytes] is a position of
    the buffer, [readExtHeader] returns without an error, with
    [ExportFormat] forced to 0 (so the precision resolves to 8) and the
    cursor at exactly [start + nHdrBytes]. *)
Theorem readExtHeader_mismatch_fallback
    (nHdrBytes : Z) (r r1 : t) (h : ExtHeader.t) :
  Channel.readExtFields r = Ok (h, r1) ->
  pos r1 - pos r <> nHdrBytes ->
  0 <= pos r + nHdrBytes <= size r ->
  Channel.readExtHeader nHdrBytes r
  = Ok (ExtHeader.set_ExportFormat 0 h, mk (buf r) (pos r + nHdrBytes))
  /\ ExtHeader.ExportFormat (ExtHeader.set_ExportFormat 0 h) = 0
  /\ Channel.resolve_precision (ExtHeader.set_ExportFormat 0 h) = 8.
Proof.
  intros Hf Hne Hin.
  split; [|split; reflexivity].
  pose proof (readExtFields_consumes _ _ _ Hf) as [Hb Hp].
  unfold Channel.readExtHeader, bind, tell. rewrite Hf.
  destruct (pos r1 - pos r =? nHdrBytes) eqn:E; [lia|].
  cbn [negb]. unfold seek, size in *. rewrite Hb.
  destruct (0 <=? pos r + nHdrBytes) eqn:E1; [|lia].
  destruct (pos r + nHdrBytes <=? Z.of_nat (Datatypes.length (buf r))) eqn:E2;
    [|lia].
  reflexivity.
Qed.

Lemma readExtHeader_mismatch_fallback_witness :
  Channel.readExtHeader 150 (mk (Inputs.zeros 200) 28)
  = Ok (ExtHeader.set_ExportFormat 0 Inputs.blank_header,
        mk (Inputs.zeros 200) 178)
  /\ ExtHeader.ExportFormat
       (ExtHeader.set_ExportFormat 0 Inputs.blank_header) = 0
  /\ Channel.resolve_precision
       (ExtHeader.set_ExportFormat 0 Inputs.blank_header) = 8.
Proof.
  apply (readExtHeader_mismatch_fallback 150 (mk (Inputs.zeros 200) 28)
           (mk (Inputs.zeros 200) 176) Inputs.blank_header).
  - vm_compute. reflexivity.
  - simpl. lia.
  - vm_compute. split; discriminate.
Defined.

(** C3, as stated, fails: a declared length that puts [start + nHdrBytes]
    outside the buffer makes the repositioning itself raise. Here the
    header starts at offset 28 and declares -64 bytes. *)
Lemma readExtHeader_mismatch_can_raise :
  ~ (forall (nHdrBytes : Z) (r r1 : t) (h : ExtHeader.t),
        Channel.readExtFields r = Ok (h, r1) ->
        pos r1 - pos r <> nHdrBytes ->
        exists h' r',
          Channel.readExtHeader nHdrBytes r = Ok (h', r')
          /\ ExtHeader.ExportFormat h' = 0
          /\ pos r' = pos r + nHdrBytes).
Proof.
  intros H.
  destruct (H (-64) (mk (Inputs.zeros 176) 28) (mk (Inputs.zeros 176) 176)
              Inputs.blank_header) as (h' & r' & E & _).
  - vm_compute. reflexivity.
  - simpl. lia.
  - assert (Channel.readExtHeader (-64) (mk (Inputs.zeros 176) 28)
            = Err OutOfBounds) as E' by (vm_compute; reflexivity).
    congruence.
Qed.

(** In the aligned case the header is returned as read and the cursor
    stays behind the 148 bytes. *)
Lemma readExtHeader_aligned (r r1 : t) (h : ExtHeader.t) :
  Channel.readExtFields r = Ok (h, r1) ->
  Channel.readExtHeader 148 r = Ok (h, r1).
Proof.
  intros Hf. pose proof (readExtFields_consumes _ _ _ Hf) as [Hb Hp].
  unfold Channel.readExtHeader, bind, tell. rewrite Hf.
  destruct (pos r1 - pos r =? 148) eqn:E; [reflexivity | lia].
Qed.

(** ** The channel header *)

(** Splits a successful chain of binds into its successful steps. *)
Ltac bind_inv H :=
  unfold bind in H;
  repeat (cbv beta in H;
          match type of H with
          | match ?m with Ok _ => _ | Err _ => _ end = Ok _ =>
              destruct m as [[? ?]|?] eqn:?; [|discriminate H]
          end).

(** What [Channel.__init__] stores as names: the file name without
    directory and extension goes to [fileName], while [fullName] is built
    from the argument as it was passed. *)
Lemma Channel_init_names (fileName : string) (verbose filterData fastload : bool)
    (r r' : t) (c : Channel.t) :
  Channel.init fileName verbose filterData fastload r = Ok (c, r') ->
  Channel.fileName c = Py.stem fileName
  /\ Channel.fullName c
     = (fileName ++ "." ++ Py.replace_space (Channel.Name c))%string
  /\ Channel.Time c = None /\ Channel.isTime c = false
  /\ Channel.broken c = false /\ Channel.data c = None
  /\ Channel.precision c = Channel.resolve_precision (Channel.extHeader c).
Proof.
  intros H. unfold Channel.init in H. bind_inv H.
  unfold ret in H. injection H as <- _. cbn. repeat split.
Qed.

(** The precision stored in a channel is one of the three widths. *)
Lemma resolve_precision_cases (h : ExtHeader.t) :
  Channel.resolve_precision h = 8 \/ Channel.resolve_precision h = 4
  \/ Channel.resolve_precision h = 2.
Proof.
  unfold Channel.resolve_precision, Channel.precDict.
  destruct (ExtHeader.ExportFormat h =? 0); [auto|].
  destruct (ExtHeader.ExportFormat h =? 1); [auto|].
  destruct (ExtHeader.ExportFormat h =? 2); auto.
Qed.

(** C9 on the code: a channel record named "Time 1" is decoded with the
    file name "data/run1.bin". The stem is "run1", and it is what the
    field [fileName] holds, but [fullName] is "data/run1.bin.Time_1" and
    not "run1.Time_1". *)
Theorem Channel_fullName_keeps_path :
  exists c r',
    Channel.init "data/run1.bin" false false true
      (mk Inputs.record_bytes 0) = Ok (c, r')
    /\ Channel.Name c = "Time 1"%string
    /\ Channel.fileName c = "run1"%string
    /\ Channel.fullName c = "data/run1.bin.Time_1"%string
    /\ Channel.fullName c
       <> (Py.stem "data/run1.bin" ++ "."
           ++ Py.replace_space (Channel.Name c))%string.
Proof.
  destruct (Channel.init "data/run1.bin" false false true
              (mk Inputs.record_bytes 0)) as [[c r']|e] eqn:E;
    vm_compute in E; [|discriminate E].
  injection E as <- <-.
  do 2 eexists. split; [reflexivity|].
  vm_compute. repeat split; discriminate.
Qed.

(** When the caller passes a bare stem, the two readings coincide. *)
Lemma Channel_fullName_of_stem (fileName : string)
    (verbose filterData fastload : bool) (r r' : t) (c : Channel.t) :
  Channel.init fileName verbose filterData fastload r = Ok (c, r') ->
  Py.stem fileName = fileName ->
  Channel.fullName c
  = (Channel.fileName c ++ "." ++ Py.replace_space (Channel.Name c))%string.
Proof.
  intros H Hs. apply Channel_init_names in H as (Hf & Hn & _).
  rewrite Hn, Hf, Hs. reflexivity.
Qed.

(** ** The channel body *)

Lemma fromfile_zero (d : Np.dtype) (r : t) :
  Np.fromfile d 0 r = Ok ([], mk (buf r) (pos r)).
Proof.
  unfold Np.fromfile. cbn [Z.ltb Z.compare].
  assert (Z.to_nat (Z.min 0 ((size r - pos r) / Np.itemsize d)) = 0%nat)
    as -> by lia.
  cbn [Np.chunks map Z.of_nat Z.mul Z.leb Z.compare andb].
  rewrite Z.add_0_r.
  destruct ((size r - pos r) / Np.itemsize d <? 0) eqn:E; [|reflexivity].
  apply Z.ltb_lt in E.
  assert (0 < Np.itemsize d) as Hw by (destruct d; reflexivity).
  assert (size r - pos r < 0) as Hlt.
  { destruct (Z.lt_ge_cases (size r - pos r) 0) as [H|H]; [exact H|].
    pose proof (Z.div_pos _ _ H Hw). lia. }
  rewrite Z.max_l by lia. reflexivity.
Qed.

(** The last step of [readData] on an empty sequence: it is stored as
    it is, and refused by the filter when the filter is on. *)
Lemma store_data_empty
    (lfilter : list float -> float -> list float -> list float)
    (c : Channel.t) (d : samples) (r : t) :
  values d = [] ->
  Channel.store_data lfilter c (Some d) r
  = if Channel.filterData c then Err ValueError
    else Ok (Channel.set_data (Some d) c, r).
Proof.
  intros Hd. unfold Channel.store_data, Channel.filter. cbn zeta.
  change (Channel.filterData (Channel.set_data (Some d) c))
    with (Channel.filterData c).
  change (Channel.data (Channel.set_data (Some d) c)) with (Some d).
  destruct (Channel.filterData c); [|reflexivity].
  rewrite Hd. reflexivity.
Qed.

(** C7, as amended. For a channel that is not broken and has length 0,
    with the filter off, the decoded sequence is empty; precisions 8 and
    4 leave the cursor where it was, and precision 2 consumes exactly the
    16 bytes of MinValue and MaxValue, which have to be there. With the
    filter on, the empty sequence is refused by the filter and the read
    raises. *)
Theorem readData_length_zero
    (lfilter : list float -> float -> list float -> list float)
    (c : Channel.t) (r : t) :
  Channel.broken c = false ->
  Channel.length c = 0 ->
  Channel.precision c = 8 \/ Channel.precision c = 4
  \/ (Channel.precision c = 2 /\ 0 <= pos r /\ pos r + 16 <= size r) ->
  if Channel.filterData c
  then Channel.readData lfilter c r = Err ValueError
  else
    exists c' r' d,
      Channel.readData lfilter c r = Ok (c', r')
      /\ buf r' = buf r
      /\ pos r' = pos r + (if Channel.precision c =? 2 then 16 else 0)
      /\ values d = []
      /\ Channel.data c' = Some d.
Proof.
  intros Hb Hl Hp.
  assert (forall (d : samples) (r1 : t),
             values d = [] -> buf r1 = buf r ->
             pos r1 = pos r + (if Channel.precision c =? 2 then 16 else 0) ->
             if Channel.filterData c
             then Channel.store_data lfilter c (Some d) r1 = Err ValueError
             else
               exists c' r' d',
                 Channel.store_data lfilter c (Some d) r1 = Ok (c', r')
                 /\ buf r' = buf r
                 /\ pos r' = pos r
                              + (if Channel.precision c =? 2 then 16 else 0)
                 /\ values d' = []
                 /\ Channel.data c' = Some d') as Hfin.
  { intros d r1 Hd Hbuf Hpos. rewrite (store_data_empty lfilter c d r1 Hd).
    destruct (Channel.filterData c); [reflexivity|].
    exists (Channel.set_data (Some d) c), r1, d.
    repeat split; first [assumption | reflexivity]. }
  unfold Channel.readData. rewrite Hb, Hl. unfold bind.
  destruct Hp as [Hp | [Hp | (Hp & Hpos & Hsz)]]; rewrite Hp in *;
    cbn [Z.eqb Pos.eqb orb] in *.
  - destruct (Channel.fastload c); cbv beta iota.
    + rewrite fromfile_zero.
      apply (Hfin (NdArray []) (mk (buf r) (pos r))); cbn; [reflexivity..|lia].
    + apply (Hfin (PyList []) r); [reflexivity..|lia].
  - destruct (Channel.fastload c); cbv beta iota.
    + rewrite fromfile_zero.
      apply (Hfin (NdArray32 []) (mk (buf r) (pos r)));
        cbn; [reflexivity..|lia].
    + apply (Hfin (PyList []) r); [reflexivity..|lia].
  - destruct (succeeds_read_double r) as [lo E1]; [lia | lia |].
    destruct (succeeds_read_double (mk (buf r) (pos r + 8))) as [hi E2];
      [cbn; lia | unfold size in *; cbn; lia |].
    cbn [buf pos] in E2.
    destruct (Channel.fastload c); cbv beta iota; rewrite E1, E2.
    + rewrite fromfile_zero.
      apply (Hfin (NdArray []) (mk (buf r) (pos r + 8 + 8)));
        cbn; [reflexivity..|lia].
    + apply (Hfin (PyList []) (mk (buf r) (pos r + 8 + 8)));
        cbn; [reflexivity..|lia].
Qed.

Lemma readData_length_zero_witness :
  exists c' r' d,
    Channel.readData Inputs.no_filter
      (Inputs.channel false true "U" 2 0 None) (mk (Inputs.zeros 16) 0)
    = Ok (c', r')
    /\ buf r' = Inputs.zeros 16
    /\ pos r' = 0 + 16
    /\ values d = []
    /\ Channel.data c' = Some d.
Proof.
  apply (readData_length_zero Inputs.no_filter
           (Inputs.channel false true "U" 2 0 None) (mk (Inputs.zeros 16) 0)).
  - reflexivity.
  - reflexivity.
  - right. right. vm_compute. repeat split; discriminate.
Defined.

(** C7, as stated, fails for precision 2: with length 0 the two
    calibration values are still read, so 16 bytes are consumed. *)
Lemma readData_length_zero_precision2_consumes :
  exists c' r',
    Channel.readData Inputs.no_filter
      (Inputs.channel false true "U" 2 0 None) (mk (Inputs.zeros 16) 0)
    = Ok (c', r')
    /\ Channel.data c' = Some (NdArray [])
    /\ pos r' = 16
    /\ pos r' <> pos (mk (Inputs.zeros 16) 0).
Proof.
  do 2 eexists. split; [vm_compute; reflexivity|].
  cbn. repeat split; discriminate.
Qed.

(** The edge values of the 2-byte encoding: with MinValue 0 and MaxValue
    100 the raw values 0 and 32767 decode to 0.0 and 100.0, on both
    paths. *)
Lemma readData_precision2_edges
    (lfilter : list float -> float -> list float -> list float)
    (fastload : bool) :
  exists c' r',
    Channel.readData lfilter
      (Inputs.channel false fastload "U" 2 2 None) (mk Inputs.body_edges 0)
    = Ok (c', r')
    /\ option_map values (Channel.data c') = Some [0; 100]%float
    /\ pos r' = 20.
Proof.
  destruct fastload; do 2 eexists; (split; [vm_compute; reflexivity|]);
    cbn; split; reflexivity.
Qed.

(** C4 on the code: with [fastload] off the raw samples are read by
    [read_int16], so the stored bytes 00 80, the unsigned integer 32768,
    decode with scale factor 1 and MinValue 0 to -32768.0 where the
    unsigned reading gives 32768.0. *)
Theorem readData_slow_path_reads_signed
    (lfilter : list float -> float -> list float -> list float) :
  exists c' r',
    Channel.readData lfilter
      (Inputs.channel false false "U" 2 2 None) (mk Inputs.body_high_bit 0)
    = Ok (c', r')
    /\ Channel.data c' = Some (PyList [1; -32768]%float)
    /\ le_unsigned [Byte.x00; Byte.x80] = 32768
    /\ (Py.float_of_int (le_unsigned [Byte.x00; Byte.x80])
        * ((32767 - 0) / 32767) + 0)%float = 32768%float
    /\ option_map values (Channel.data c')
       <> Some (map (fun v => (Py.float_of_int v * ((32767 - 0) / 32767) + 0)%float)
                  [le_unsigned [Byte.x01; Byte.x00];
                   le_unsigned [Byte.x00; Byte.x80]]).
Proof.
  do 2 eexists. split; [vm_compute; reflexivity|].
  cbn [Channel.data Channel.set_data Inputs.channel option_map values].
  split; [reflexivity|]. split; [reflexivity|]. split; [reflexivity|].
  intros E.
  apply (f_equal (fun o => match o with
                           | Some [_; y] => PrimFloat.ltb y 0
                           | _ => false
                           end)) in E.
  vm_compute in E. discriminate E.
Qed.

(** C10 on the code: the same 2-byte body read on the two paths. The raw
    sample 0x8000 is 32768.0 on the fast path and -32768.0 on the slow
    one. *)
Theorem readData_paths_differ_on_high_bit
    (lfilter : list float -> float -> list float -> list float) :
  exists cf rf cs rs,
    Channel.readData lfilter
      (Inputs.channel false true "U" 2 2 None) (mk Inputs.body_high_bit 0)
    = Ok (cf, rf)
    /\ Channel.readData lfilter
         (Inputs.channel false false "U" 2 2 None) (mk Inputs.body_high_bit 0)
       = Ok (cs, rs)
    /\ option_map values (Channel.data cf) = Some [1; 32768]%float
    /\ option_map values (Channel.data cs) = Some [1; -32768]%float
    /\ option_map values (Channel.data cf)
       <> option_map values (Channel.data cs).
Proof.
  do 4 eexists.
  split; [vm_compute; reflexivity|]. split; [vm_compute; reflexivity|].
  cbn [Channel.data Channel.set_data Inputs.channel option_map values].
  split; [reflexivity|]. split; [reflexivity|].
  intros E.
  apply (f_equal (fun o => match o with
                           | Some [_; y] => PrimFloat.ltb y 0
                           | _ => false
                           end)) in E.
  vm_compute in E. discriminate E.
Qed.

(** ** Groups *)




Lemma Group_init_ok (st : store) (channels : list ref) (fileName : string)
    (verbose : bool) (tc : ref) (d : samples) (x f : float) :
  List.find (fun r => Channel.isTime (st r)) channels = Some tc ->
  Channel.data (st tc) = Some d ->
  values d !! 1%nat = Some x ->
  Group.reciprocal d x = Ok f ->
  Group.init st channels fileName verbose
  = Ok (group_for st channels fileName verbose tc d x f).
Proof.
  intros Hf Hd Hx Hr. unfold Group.init, group_for. rewrite Hf.
  cbn [Group.getattr rbind]. unfold Channel.getitem. rewrite Hd, Hx.
  cbn [Group.getattr rbind].
  destruct (Group.infer_unit_by (Group.lt d) x) as [u fac].
  rewrite Hr. reflexivity.
Qed.

Lemma Group_init_inv (st : store) (channels : list ref) (fileName : string)
    (verbose : bool) (g : Group.t) :
  Group.init st channels fileName verbose = Ok g ->
  exists tc d x f,
    List.find (fun r => Channel.isTime (st r)) channels = Some tc
    /\ Channel.data (st tc) = Some d
    /\ values d !! 1%nat = Some x
    /\ Group.reciprocal d x = Ok f
    /\ g = group_for st channels fileName verbose tc d x f.
Proof.
  unfold Group.init, group_for.
  destruct (List.find _ channels) as [tc|] eqn:Hf; [|discriminate].
  cbn [Group.getattr rbind]. unfold Channel.getitem.
  destruct (Channel.data (st tc)) as [d|] eqn:Hd; [|discriminate].
  destruct (values d !! 1%nat) as [x|] eqn:Hx; [|discriminate].
  cbn [Group.getattr rbind].
  destruct (Group.infer_unit_by (Group.lt d) x) as [u fac] eqn:Hu.
  destruct (Group.reciprocal d x) as [f|e] eqn:Hr; [|discriminate].
  cbn [rbind]. intros H. injection H as <-.
  exists tc, d, x, f. rewrite Hu.
  repeat split; first [assumption | reflexivity].
Qed.

(** Without a flagged channel the attribute [Name] is never assigned and
    reading it raises. *)
Lemma Group_init_without_time (st : store) (channels : list ref)
    (fileName : string) (verbose : bool) :
  List.find (fun r => Channel.isTime (st r)) channels = None ->
  Group.init st channels fileName verbose = Err AttributeError.
Proof.
  intros Hf. unfold Group.init. rewrite Hf. reflexivity.
Qed.

(** C1 on the code: a partition in which no channel is flagged as time.
    The constructor raises, here and for the empty list, and so does the
    linking step that calls it. *)
Theorem Group_init_no_time_raises :
  List.find (fun r => Channel.isTime (Inputs.st_no_time r)) [0%nat] = None
  /\ Group.init Inputs.st_no_time [0%nat] "unknown" false
     = Err AttributeError
  /\ Group.init Inputs.st_no_time [] "unknown" false = Err AttributeError
  /\ GroupLinker.link Inputs.st_no_time [0%nat] "unknown" false
     = Err AttributeError.
Proof. repeat split. Qed.

(** C2, as amended. When the time channel of the partition has fewer than
    two samples, the read of the second sample raises an index error and
    no group is built. *)
Theorem Group_init_short_time_channel
    (st : store) (channels : list ref) (fileName : string) (verbose : bool)
    (tc : ref) (d : samples) :
  List.find (fun r => Channel.isTime (st r)) channels = Some tc ->
  Channel.data (st tc) = Some d ->
  (Datatypes.length (values d) < 2)%nat ->
  Group.init st channels fileName verbose = Err IndexError.
Proof.
  intros Hf Hd Hlen. unfold Group.init. rewrite Hf.
  cbn [Group.getattr rbind]. unfold Channel.getitem. rewrite Hd.
  rewrite (proj2 (lookup_ge_None (values d) 1%nat)) by lia.
  reflexivity.
Qed.

Lemma Group_init_short_time_channel_witness :
  Group.init Inputs.st_short [0%nat; 1%nat] "unknown" false = Err IndexError.
Proof.
  apply (Group_init_short_time_channel Inputs.st_short [0%nat; 1%nat]
           "unknown" false 0%nat (NdArray [0%float])).
  - reflexivity.
  - reflexivity.
  - simpl. lia.
Defined.

(** C2, as stated, fails: the time channel of this partition has one
    sample and no group comes out of the constructor. *)
Lemma Group_init_short_time_channel_crashes :
  List.find (fun r => Channel.isTime (Inputs.st_short r)) [0%nat; 1%nat]
  = Some 0%nat
  /\ option_map (fun d => Datatypes.length (values d))
       (Channel.data (Inputs.st_short 0%nat)) = Some 1%nat
  /\ ~ exists g,
        Group.init Inputs.st_short [0%nat; 1%nat] "unknown" false = Ok g.
Proof.
  split; [reflexivity|]. split; [reflexivity|].
  intros [g Hg]. vm_compute in Hg. discriminate Hg.
Qed.




(** A time channel of float32 samples is measured in binary32: when its
    second sample is the float32 nearest to 1e-6, that sample is not
    below the float32 that 1e-6 becomes, so the unit is the one of the
    second check, and the product and the reciprocal are rounded to
    float32. *)
Lemma Group_init_float32_microsecond
    (st : store) (channels : list ref) (fileName : string) (verbose : bool)
    (tc : ref) (xs : list float) :
  List.find (fun r => Channel.isTime (st r)) channels = Some tc ->
  Channel.data (st tc) = Some (NdArray32 xs) ->
  xs !! 1%nat = Some (Np.round32 1e-6) ->
  exists g,
    Group.init st channels fileName verbose = Ok g
    /\ Group.intervalstr g = "1.000ns"%string
    /\ Group.frequency g = 1000000%float
    /\ Group.intervalstr
         (group_of st channels fileName verbose tc (Np.round32 1e-6)
            (1 / Np.round32 1e-6))
       = "1000.000μs"%string.
Proof.
  intros Hf Hd Hx. eexists.
  split; [exact (Group_init_ok _ _ _ _ _ _ _ _ Hf Hd Hx eq_refl)|].
  repeat split; vm_compute; reflexivity.
Qed.

(** C6, as amended. A second sample of 0.0005 is below 1 and below 1e-3,
    so the second check replaces "ms" by "ns" with factor 1e6, and the
    interval string is "500.000ns". *)
Theorem Group_init_half_millisecond
    (st : store) (channels : list ref) (fileName : string) (verbose : bool)
    (tc : ref) (d : samples) :
  List.find (fun r => Channel.isTime (st r)) channels = Some tc ->
  Channel.data (st tc) = Some d ->
  values d !! 1%nat = Some 0.0005%float ->
  exists g,
    Group.init st channels fileName verbose = Ok g
    /\ Group.infer_unit 0.0005 = ("ns"%string, 1e6%float)
    /\ Group.intervalstr g = "500.000ns"%string.
Proof.
  intros Hf Hd Hx.
  assert (exists f, Group.reciprocal d 0.0005 = Ok f) as [f Hr]
    by (destruct d; eexists; reflexivity).
  exists (group_for st channels fileName verbose tc d 0.0005 f).
  split; [exact (Group_init_ok _ _ _ _ _ _ _ _ Hf Hd Hx Hr)|].
  split; [reflexivity|].
  destruct d; vm_compute; reflexivity.
Qed.

Lemma Group_init_half_millisecond_witness :
  exists g,
    Group.init Inputs.st_half_ms [0; 1; 2]%nat "unknown" false = Ok g
    /\ Group.infer_unit 0.0005 = ("ns"%string, 1e6%float)
    /\ Group.intervalstr g = "500.000ns"%string.
Proof.
  apply (Group_init_half_millisecond Inputs.st_half_ms [0; 1; 2]%nat
           "unknown" false 0%nat (NdArray [0; 0.0005; 0.001]%float)).
  - reflexivity.
  - reflexivity.
  - reflexivity.
Defined.

(** C6, as stated, fails: for the time channel 0.0, 0.0005, 0.001 the
    unit is not "ms" and the interval string is not "0.500ms". *)
Lemma Group_init_half_millisecond_not_ms :
  values (NdArray [0; 0.0005; 0.001]%float) !! 1%nat = Some 0.0005%float
  /\ exists g,
       Group.init Inputs.st_half_ms [0; 1; 2]%nat "unknown" false = Ok g
       /\ fst (Group.infer_unit 0.0005) <> "ms"%string
       /\ Group.intervalstr g <> "0.500ms"%string.
Proof.
  split; [reflexivity|].
  eexists. split; [vm_compute; reflexivity|].
  split; vm_compute; discriminate.
Qed.

(** ** Linking *)

Lemma connect_isTime (st : store) (channels : list ref) (r : ref) :
  Channel.isTime (GroupLinker.connect st channels r) = Channel.isTime (st r).
Proof.
  unfold GroupLinker.connect.
  destruct (bool_decide (r ∈ channels) && negb (Channel.isTime (st r)));
    reflexivity.
Qed.

Lemma find_pointwise {A} (f g : A -> bool) (l : list A) :
  (forall a, f a = g a) -> List.find f l = List.find g l.
Proof.
  intros Hfg. induction l as [|a l IH]; cbn [List.find]; [reflexivity|].
  rewrite Hfg, IH. reflexivity.
Qed.

Lemma connect_time_channel (st : store) (channels : list ref) :
  List.find (fun r => Channel.isTime (GroupLinker.connect st channels r))
    channels
  = List.find (fun r => Channel.isTime (st r)) channels.
Proof. apply find_pointwise. intros r. apply connect_isTime. Qed.

(** Linking gives every channel of the partition that is not flagged the
    first flagged channel as its [Time], or none when there is none. *)
Lemma connect_Time (st : store) (channels : list ref) (r : ref) :
  r ∈ channels ->
  Channel.isTime (st r) = false ->
  Channel.Time (GroupLinker.connect st channels r)
  = List.find (fun x => Channel.isTime (st x)) channels.
Proof.
  intros Hin Hr. unfold GroupLinker.connect.
  rewrite (bool_decide_eq_true_2 _ Hin), Hr. reflexivity.
Qed.

(** A channel outside the partition is left as it was. *)
Lemma connect_frame (st : store) (channels : list ref) (r : ref) :
  r ∉ channels -> GroupLinker.connect st channels r = st r.
Proof.
  intros Hin. unfold GroupLinker.connect.
  rewrite (bool_decide_eq_false_2 _ Hin). reflexivity.
Qed.

(** C8. After a partition is linked and its group is constructed, every
    channel of the partition that is not flagged as time is among
    [ChannelsY] and its [Time] field is the group's [ChannelX]. *)
Theorem link_back_references
    (st st' : store) (channels : list ref) (fileName : string)
    (verbose : bool) (g : Group.t) :
  GroupLinker.link st channels fileName verbose = Ok (st', g) ->
  forall r : ref,
    r ∈ channels ->
    Channel.isTime (st' r) = false ->
    r ∈ Group.ChannelsY g /\ Channel.Time (st' r) = Group.ChannelX g.
Proof.
  unfold GroupLinker.link.
  destruct (Group.init (GroupLinker.connect st channels) channels fileName
              verbose) as [g0|e] eqn:E; [|discriminate].
  cbn [rbind]. intros H. injection H as <- <-.
  apply Group_init_inv in E as (tc & d & x & f & Hf & _ & _ & _ & ->).
  intros r Hin Hr. cbn [group_for Group.ChannelsY Group.ChannelX]. split.
  - apply list_elem_of_In, filter_In. split.
    + apply list_elem_of_In, Hin.
    + rewrite Hr. reflexivity.
  - rewrite connect_isTime in Hr.
    rewrite (connect_Time st channels r Hin Hr).
    rewrite <- Hf. symmetry. apply connect_time_channel.
Qed.

Lemma link_back_references_witness :
  1%nat ∈ Group.ChannelsY
            (group_of (GroupLinker.connect Inputs.st_half_ms [0; 1; 2]%nat)
               [0; 1; 2]%nat "unknown" false 0%nat 0.0005 (1 / 0.0005))
  /\ Channel.Time (GroupLinker.connect Inputs.st_half_ms [0; 1; 2]%nat 1%nat)
     = Group.ChannelX
         (group_of (GroupLinker.connect Inputs.st_half_ms [0; 1; 2]%nat)
            [0; 1; 2]%nat "unknown" false 0%nat 0.0005 (1 / 0.0005)).
Proof.
  apply (link_back_references Inputs.st_half_ms
           (GroupLinker.connect Inputs.st_half_ms [0; 1; 2]%nat)
           [0; 1; 2]%nat "unknown" false).
  - reflexivity.
  - apply list_elem_of_In. simpl. auto.
  - reflexivity.
Defined.

(** The constructor of [Group] by itself reads the channels and assigns
    no [Time]: without the linking step the data channel of the example
    has no back-reference although the group has its time channel. *)
Lemma Group_init_assigns_no_reference :
  exists g,
    Group.init Inputs.st_half_ms [0; 1; 2]%nat "unknown" false = Ok g
    /\ Group.ChannelX g = Some 0%nat
    /\ Group.ChannelsY g = [1; 2]%nat
    /\ Channel.Time (Inputs.st_half_ms 1%nat) = None.
Proof.
  eexists. split; [vm_compute; reflexivity|]. repeat split.
Qed.

(** ** The two paths of the body decoder against the specification *)

Lemma read_many_pointwise {A} (n : nat) (rd1 rd2 : M A) (r : t) :
  (forall r0, rd1 r0 = rd2 r0) -> read_many n rd1 r = read_many n rd2 r.
Proof.
  intros Hrd. revert r. induction n as [|n IH]; intros r; cbn [read_many].
  - reflexivity.
  - unfold bind. rewrite Hrd.
    destruct (rd2 r) as [[x r1]|e]; [|reflexivity].
    rewrite IH. reflexivity.
Qed.

(** Reading [n] items of [w] bytes one by one returns the [n] successive
    chunks of the buffer, decoded. *)
Lemma read_many_bytes {A} (n w : nat) (f : list Byte.byte -> A) (r : t) :
  0 <= pos r ->
  pos r + Z.of_nat n * Z.of_nat w <= size r ->
  read_many n (bind (read_bytes (Z.of_nat w)) (fun bs => ret (f bs))) r
  = Ok (map f (Np.chunks n w (drop (Z.to_nat (pos r)) (buf r))),
        mk (buf r) (pos r + Z.of_nat n * Z.of_nat w)).
Proof.
  revert r. induction n as [|n IH]; intros r Hp Hs; cbn [read_many].
  - unfold ret. destruct r as [b p]. cbn. rewrite Z.add_0_r. reflexivity.
  - unfold bind at 1. unfold bind at 1.
    rewrite read_bytes_ok by lia. unfold ret at 1.
    unfold bind at 1.
    rewrite IH by (unfold size in *; cbn [buf pos]; lia).
    unfold ret. cbn [buf pos Np.chunks map].
    rewrite Nat2Z.id.
    replace (Z.to_nat (pos r + Z.of_nat w))
      with (Z.to_nat (pos r) + w)%nat by lia.
    rewrite drop_drop.
    do 3 f_equal. lia.
Qed.

(** With enough bytes left, [np.fromfile] returns exactly [count] items. *)
Lemma fromfile_enough (d : Np.dtype) (count : Z) (r : t) :
  0 <= count -> 0 <= pos r ->
  pos r + count * Np.itemsize d <= size r ->
  Np.fromfile d count r
  = Ok (map (Np.item d)
          (Np.chunks (Z.to_nat count) (Z.to_nat (Np.itemsize d))
             (drop (Z.to_nat (pos r)) (buf r))),
        mk (buf r) (pos r + count * Np.itemsize d)).
Proof.
  intros Hc Hp Hs. unfold Np.fromfile.
  assert (0 < Np.itemsize d) as Hw by (destruct d; reflexivity).
  destruct (count <? 0) eqn:E; [lia|].
  assert (count <= (size r - pos r) / Np.itemsize d) as Hle
    by (apply Z.div_le_lower_bound; lia).
  rewrite Z.min_l by exact Hle.
  rewrite (proj2 (Z.ltb_ge _ _) Hle), andb_false_r.
  rewrite Z2Nat.id by exact Hc. reflexivity.
Qed.

(** A file that ends before the last item gives the complete items
    that are there, and the read ends at the end of the file. *)
Lemma fromfile_short (d : Np.dtype) (count : Z) (r : t) :
  0 <= pos r ->
  pos r <= size r ->
  (size r - pos r) / Np.itemsize d < count ->
  Np.fromfile d count r
  = Ok (map (Np.item d)
          (Np.chunks (Z.to_nat ((size r - pos r) / Np.itemsize d))
             (Z.to_nat (Np.itemsize d))
             (drop (Z.to_nat (pos r)) (buf r))),
        mk (buf r) (size r)).
Proof.
  intros Hp Hs Hlt. unfold Np.fromfile.
  assert (0 < Np.itemsize d) as Hw by (destruct d; reflexivity).
  assert (0 <= (size r - pos r) / Np.itemsize d) as Hav
    by (apply Z.div_pos; lia).
  destruct (count <? 0) eqn:E; [lia|].
  rewrite Z.min_r by lia.
  rewrite (proj2 (Z.leb_le 0 count)) by lia.
  rewrite (proj2 (Z.ltb_lt _ _) Hlt). cbn [andb].
  rewrite Z.max_r by exact Hs. reflexivity.
Qed.

Lemma chunks_nonempty {A} (f : list Byte.byte -> A) (n : Z) (w : nat)
    (bs : list Byte.byte) :
  0 < n -> map f (Np.chunks (Z.to_nat n) w bs) <> [].
Proof.
  intros Hn. destruct (Z.to_nat n) as [|k] eqn:E; [lia|].
  cbn [Np.chunks map]. discriminate.
Qed.

Lemma le_unsigned_nonneg (bs : list Byte.byte) : 0 <= le_unsigned bs.
Proof.
  induction bs as [|b bs IH]; cbn [le_unsigned]; [lia|].
  apply Z.lor_nonneg. split.
  - unfold byte_val. lia.
  - apply Z.shiftl_nonneg. exact IH.
Qed.

(** A 16-bit value below 0x8000 reads the same signed and unsigned. *)
Lemma le_signed_low (bs : list Byte.byte) :
  Datatypes.length bs = 2%nat -> le_unsigned bs < 32768 ->
  le_signed bs = le_unsigned bs.
Proof.
  intros Hl Hlt. unfold le_signed. rewrite Hl.
  change (8 * Z.of_nat 2 - 1) with 15.
  pose proof (le_unsigned_nonneg bs) as Hn.
  destruct (Z.eq_dec (le_unsigned bs) 0) as [-> | Hnz]; [reflexivity|].
  rewrite Z.bits_above_log2; [reflexivity | lia |].
  apply Z.log2_lt_pow2; lia.
Qed.

Lemma chunks_length (n w : nat) (bs : list Byte.byte) :
  (n * w <= Datatypes.length bs)%nat ->
  Forall (fun ch => Datatypes.length ch = w) (Np.chunks n w bs).
Proof.
  revert bs. induction n as [|n IH]; intros bs Hl; cbn [Np.chunks].
  - constructor.
  - constructor.
    + rewrite length_take. lia.
    + apply IH. rewrite length_drop. lia.
Qed.

(** The last step of [readData] returns when the filter is off or has
    a sample to work on. *)
Lemma store_data_spec
    (lfilter : list float -> float -> list float -> list float)
    (c : Channel.t) (d : samples) (r : t) :
  Channel.filterData c = false \/ values d <> [] ->
  exists c',
    Channel.store_data lfilter c (Some d) r = Ok (c', r)
    /\ option_map values (Channel.data c')
       = Some (Channel.stored_values lfilter c (values d)).
Proof.
  intros Hne.
  unfold Channel.store_data, Channel.stored_values, Channel.filter,
    Channel.signal_lfilter.
  cbn zeta.
  change (Channel.filterData (Channel.set_data (Some d) c))
    with (Channel.filterData c).
  change (Channel.data (Channel.set_data (Some d) c)) with (Some d).
  destruct (Channel.filterData c); [|eexists; split; reflexivity].
  destruct Hne as [Hne | Hne]; [discriminate|].
  destruct (values d) as [|x xs]; [congruence|].
  eexists; split; reflexivity.
Qed.

Lemma read_double_ok (r : t) :
  0 <= pos r -> pos r + 8 <= size r ->
  read_double r
  = Ok (f64_of_bytes (take 8 (drop (Z.to_nat (pos r)) (buf r))),
        mk (buf r) (pos r + 8)).
Proof.
  intros Hp Hs. unfold read_double, bind.
  rewrite read_bytes_ok by lia. reflexivity.
Qed.

Lemma drop_at_offset (r : t) (k : nat) :
  0 <= pos r ->
  drop (Z.to_nat (pos r + Z.of_nat k)) (buf r)
  = drop k (drop (Z.to_nat (pos r)) (buf r)).
Proof.
  intros Hp. rewrite drop_drop. f_equal. lia.
Qed.

Ltac stored_side Hne :=
  destruct Hne as [Hne | Hne];
  [ left; exact Hne
  | right; cbn [values];
    first
      [ apply chunks_nonempty; exact Hne
      | let H := fresh in
        intros H; apply map_eq_nil in H; revert H;
        apply chunks_nonempty; exact Hne ] ].

(** The fast path decodes the body as the specification describes it,
    whenever the bytes of the body are in the buffer. *)
Lemma readData_fast_refines_spec
    (lfilter : list float -> float -> list float -> list float)
    (c : Channel.t) (r : t) :
  Channel.broken c = false ->
  Channel.fastload c = true ->
  Channel.precision c = 8 \/ Channel.precision c = 4
  \/ Channel.precision c = 2 ->
  0 <= Channel.length c ->
  Channel.filterData c = false \/ 0 < Channel.length c ->
  0 <= pos r ->
  pos r + Channel.body_size c <= size r ->
  exists c' r',
    Channel.readData lfilter c r = Ok (c', r')
    /\ buf r' = buf r
    /\ pos r' = pos r + Channel.body_size c
    /\ option_map values (Channel.data c')
       = Some (Channel.stored_values lfilter c (Channel.spec_body c r)).
Proof.
  intros Hb Hf Hp Hl Hne Hpos Hs.
  unfold Channel.readData, Channel.body_size, Channel.spec_body in *.
  rewrite Hb, Hf.
  destruct Hp as [Hp | [Hp | Hp]]; rewrite Hp in *;
    cbn [Z.eqb Pos.eqb orb] in *; unfold bind.
  - rewrite (fromfile_enough Np.f8) by (cbn [Np.itemsize]; lia).
    match goal with
    | |- context [ret (Some (NdArray ?xs)) ?r1] =>
        destruct (store_data_spec lfilter c (NdArray xs) r1) as (c' & E & Ed);
        [stored_side Hne | exists c', r1]
    end.
    split; [exact E|]. cbn [buf pos Np.itemsize].
    split; [reflexivity|]. split; [lia|]. exact Ed.
  - rewrite (fromfile_enough Np.f4) by (cbn [Np.itemsize]; lia).
    match goal with
    | |- context [ret (Some (NdArray32 ?xs)) ?r1] =>
        destruct (store_data_spec lfilter c (NdArray32 xs) r1) as (c' & E & Ed);
        [stored_side Hne | exists c', r1]
    end.
    split; [exact E|]. cbn [buf pos Np.itemsize].
    split; [reflexivity|]. split; [lia|]. exact Ed.
  - rewrite read_double_ok by lia.
    rewrite read_double_ok by (unfold size in *; cbn [buf pos]; lia).
    cbn [buf pos].
    rewrite (fromfile_enough Np.u2)
      by (unfold size in *; cbn [buf pos Np.itemsize]; lia).
    cbn [buf pos Np.itemsize].
    change (pos r + 8) with (pos r + Z.of_nat 8).
    change (pos r + Z.of_nat 8 + 8) with (pos r + Z.of_nat 8 + Z.of_nat 8).
    replace (pos r + Z.of_nat 8 + Z.of_nat 8) with (pos r + Z.of_nat 16)
      by lia.
    rewrite !drop_at_offset by exact Hpos.
    match goal with
    | |- context [ret (Some (NdArray ?xs)) ?r1] =>
        destruct (store_data_spec lfilter c (NdArray xs) r1) as (c' & E & Ed);
        [stored_side Hne | exists c', r1]
    end.
    split; [exact E|]. cbn [buf pos].
    split; [reflexivity|]. split; [lia|].
    rewrite Ed. cbn [values]. rewrite map_map. reflexivity.
Qed.

(** The slow path decodes the body as the specification describes it for
    precisions 8 and 4, and for precision 2 as long as every raw sample is
    below 0x8000. *)
Lemma readData_slow_refines_spec
    (lfilter : list float -> float -> list float -> list float)
    (c : Channel.t) (r : t) :
  Channel.broken c = false ->
  Channel.fastload c = false ->
  Channel.precision c = 8 \/ Channel.precision c = 4
  \/ (Channel.precision c = 2
      /\ Forall (fun bs => le_unsigned bs < 32768) (Channel.raw_samples c r)) ->
  0 <= Channel.length c ->
  Channel.filterData c = false \/ 0 < Channel.length c ->
  0 <= pos r ->
  pos r + Channel.body_size c <= size r ->
  exists c' r',
    Channel.readData lfilter c r = Ok (c', r')
    /\ buf r' = buf r
    /\ pos r' = pos r + Channel.body_size c
    /\ option_map values (Channel.data c')
       = Some (Channel.stored_values lfilter c (Channel.spec_body c r)).
Proof.
  intros Hb Hf Hp Hl Hne Hpos Hs.
  unfold Channel.readData, Channel.body_size, Channel.spec_body in *.
  rewrite Hb, Hf.
  destruct Hp as [Hp | [Hp | [Hp Hraw]]]; rewrite Hp in *;
    cbn [Z.eqb Pos.eqb orb] in *; unfold bind at 1; unfold bind at 1.
  - change read_double
      with (bind (read_bytes (Z.of_nat 8)) (fun bs => ret (f64_of_bytes bs))).
    rewrite read_many_bytes by lia.
    match goal with
    | |- context [ret (Some (PyList ?xs)) ?r1] =>
        destruct (store_data_spec lfilter c (PyList xs) r1) as (c' & E & Ed);
        [stored_side Hne | exists c', r1]
    end.
    split; [exact E|]. cbn [buf pos].
    split; [reflexivity|]. split; [lia|]. exact Ed.
  - change read_float
      with (bind (read_bytes (Z.of_nat 4)) (fun bs => ret (f32_of_bytes bs))).
    rewrite read_many_bytes by lia.
    match goal with
    | |- context [ret (Some (PyList ?xs)) ?r1] =>
        destruct (store_data_spec lfilter c (PyList xs) r1) as (c' & E & Ed);
        [stored_side Hne | exists c', r1]
    end.
    split; [exact E|]. cbn [buf pos].
    split; [reflexivity|]. split; [lia|]. exact Ed.
  - rewrite read_double_ok by lia. unfold bind at 1.
    rewrite read_double_ok by (unfold size in *; cbn [buf pos]; lia).
    cbn [buf pos]. unfold bind at 1.
    set (lo := f64_of_bytes (take 8 (drop (Z.to_nat (pos r)) (buf r)))).
    set (hi := f64_of_bytes (take 8 (drop (Z.to_nat (pos r + 8)) (buf r)))).
    rewrite (read_many_pointwise _ _
               (bind (read_bytes (Z.of_nat 2))
                  (fun bs => ret (Py.float_of_int (le_signed bs)
                                  * ((hi - lo) / 32767) + lo)%float))).
    2:{ intros r0. unfold read_int16, bind, ret.
        change (Z.of_nat 2) with 2.
        destruct (read_bytes 2 r0) as [[bs r1]|e]; reflexivity. }
    rewrite read_many_bytes
      by (unfold size in *; cbn [buf pos]; lia).
    cbn [buf pos].
    match goal with
    | |- context [ret (Some (PyList ?xs)) ?r1] =>
        destruct (store_data_spec lfilter c (PyList xs) r1) as (c' & E & Ed);
        [stored_side Hne | exists c', r1]
    end.
    split; [exact E|]. cbn [buf pos].
    split; [reflexivity|]. split; [lia|].
    rewrite Ed. cbn [values]. subst lo hi.
    change (pos r + 8) with (pos r + Z.of_nat 8).
    replace (pos r + Z.of_nat 8 + 8) with (pos r + Z.of_nat 16) by lia.
    rewrite !drop_at_offset by exact Hpos.
    do 2 f_equal. apply map_ext_in. intros bs Hin.
    rewrite le_signed_low; [reflexivity | |].
    + assert (Forall (fun ch : list Byte.byte => Datatypes.length ch = 2%nat)
                (Np.chunks (Z.to_nat (Channel.length c)) 2
                   (drop 16 (drop (Z.to_nat (pos r)) (buf r))))) as Hlen.
      { apply chunks_length. rewrite !length_drop.
        unfold size in Hs. lia. }
      rewrite List.Forall_forall in Hlen. apply Hlen, Hin.
    + unfold Channel.raw_samples in Hraw.
      rewrite List.Forall_forall in Hraw. apply Hraw, Hin.
Qed.

(** X11. Where the two paths agree: on every body of precision 8 or 4, and on
    the bodies of precision 2 whose raw samples are all below 0x8000, as
    long as the filter is off or there is a sample to filter. *)
Lemma readData_paths_agree
    (lfilter : list float -> float -> list float -> list float)
    (c : Channel.t) (r : t) :
  Channel.broken c = false ->
  Channel.precision c = 8 \/ Channel.precision c = 4
  \/ (Channel.precision c = 2
      /\ Forall (fun bs => le_unsigned bs < 32768) (Channel.raw_samples c r)) ->
  0 <= Channel.length c ->
  Channel.filterData c = false \/ 0 < Channel.length c ->
  0 <= pos r ->
  pos r + Channel.body_size c <= size r ->
  exists cf cs r',
    Channel.readData lfilter (Channel.set_fastload true c) r = Ok (cf, r')
    /\ Channel.readData lfilter (Channel.set_fastload false c) r = Ok (cs, r')
    /\ option_map values (Channel.data cf)
       = option_map values (Channel.data cs).
Proof.
  intros Hb Hp Hl Hne Hpos Hs.
  destruct (readData_fast_refines_spec lfilter (Channel.set_fastload true c) r)
    as (cf & rf & Ef & Hbf & Hpf & Hvf); try assumption; try reflexivity.
  { tauto. }
  destruct (readData_slow_refines_spec lfilter (Channel.set_fastload false c) r)
    as (cs & rs & Es & Hbs & Hps & Hvs); try assumption; try reflexivity.
  assert (rf = rs) as <-.
  { destruct rf, rs. cbn [buf pos] in *. subst. reflexivity. }
  exists cf, cs, rf. split; [exact Ef|]. split; [exact Es|].
  rewrite Hvf, Hvs. reflexivity.
Qed.

(* ===================================================================== *)
(** * Further properties of the decoder                                  *)
(* ===================================================================== *)

(** ** Reads stay inside the buffer *)

Lemma takes_ret {A} (a : A) : takes 0 (ret a).
Proof.
  intros r x r'. unfold ret. intros H. injection H as _ <-.
  repeat split; lia.
Qed.

Lemma takes_bind {A B} (w1 w2 w : Z) (m : M A) (k : A -> M B) :
  0 <= w1 -> 0 <= w2 -> w = w1 + w2 ->
  takes w1 m -> (forall a, takes w2 (k a)) -> takes w (bind m k).
Proof.
  intros H1 H2 -> Hm Hk r b r'. unfold bind.
  destruct (m r) as [[a r1]|e] eqn:E; [|discriminate].
  intros H. apply Hm in E as (Eb & Ep & Ei). apply Hk in H as (Hb & Hp & Hi).
  unfold size in *. rewrite Hb, Eb in *.
  split; [reflexivity|]. split; [lia|]. intros Hw.
  destruct (Z.eq_dec w1 0) as [-> | Hn1], (Z.eq_dec w2 0) as [-> | Hn2]; lia.
Qed.

Lemma takes_read_bytes (n : Z) : takes n (read_bytes n).
Proof.
  intros r bs r' H. apply read_bytes_inv in H as (Hb & Hp & Hn & Hpos & Hs).
  unfold size in *. rewrite Hb. repeat split; lia.
Qed.

Lemma takes_nonneg_read_bytes (n : Z) (r r' : t) (bs : list Byte.byte) :
  read_bytes n r = Ok (bs, r') -> 0 <= n.
Proof. intros H. apply read_bytes_inv in H. lia. Qed.

(** Walks a chain of binds for [takes]; [prim] closes each single read. *)
Ltac read_takes prim :=
  lazymatch goal with
  | |- takes _ (ret _) => apply takes_ret
  | |- takes _ (bind _ _) =>
      eapply takes_bind; [ | | | prim | intros ?; read_takes prim ];
      [ lia | lia | first [ reflexivity | lia ] ]
  end.

Lemma takes_fixed (w : Z) {A} (f : list Byte.byte -> A) :
  0 <= w -> takes w (bind (read_bytes w) (fun bs => ret (f bs))).
Proof.
  intros Hw. eapply takes_bind with (w1 := w) (w2 := 0);
    [lia | lia | lia | apply takes_read_bytes | intros bs; apply takes_ret].
Qed.

Lemma takes_read_many {A} (n : nat) (w : Z) (rd : M A) :
  0 <= w -> takes w rd -> takes (Z.of_nat n * w) (read_many n rd).
Proof.
  intros Hw Hrd. induction n as [|n IH]; cbn [read_many].
  - apply takes_ret.
  - eapply takes_bind with (w1 := w) (w2 := Z.of_nat n * w);
      [lia | lia | lia | exact Hrd | intros x].
    eapply takes_bind with (w1 := Z.of_nat n * w) (w2 := 0);
      [lia | lia | lia | exact IH | intros xs; apply takes_ret].
Qed.

(** The field sequence of the extended header takes 148 bytes of the
    buffer. *)
Lemma readExtFields_takes : takes 148 Channel.readExtFields.
Proof.
  unfold Channel.readExtFields.
  read_takes
    ltac:(first [ apply (takes_fixed 8); lia | apply (takes_fixed 4); lia
                | apply (takes_fixed 2); lia | apply (takes_fixed 1); lia
                | apply (takes_fixed 32); lia | apply (takes_fixed 3); lia
                | apply (takes_fixed 7); lia
                | apply (takes_read_many 4 4);
                  [ lia | apply (takes_fixed 4); lia ] ]).
Qed.

(** ** The extended header, whatever its declared length *)

Lemma readExtHeader_inv (nHdrBytes : Z) (r r' : t) (h : ExtHeader.t) :
  Channel.readExtHeader nHdrBytes r = Ok (h, r') ->
  exists h0 r1,
    Channel.readExtFields r = Ok (h0, r1)
    /\ ((nHdrBytes = 148 /\ h = h0 /\ r' = r1)
        \/ (nHdrBytes <> 148 /\ h = ExtHeader.set_ExportFormat 0 h0
            /\ r' = mk (buf r) (pos r + nHdrBytes)
            /\ 0 <= pos r + nHdrBytes <= size r)).
Proof.
  unfold Channel.readExtHeader, bind, tell.
  destruct (Channel.readExtFields r) as [[h0 r1]|e] eqn:Hf; [|discriminate].
  pose proof (readExtFields_consumes _ _ _ Hf) as [Hb Hp].
  exists h0, r1. split; [reflexivity|].
  destruct (pos r1 - pos r =? nHdrBytes) eqn:E; cbn [negb] in H.
  - left. unfold ret in H. injection H as <- <-. repeat split. lia.
  - right. unfold seek, size in H. rewrite Hb in H.
    destruct ((0 <=? pos r + nHdrBytes)
              && (pos r + nHdrBytes <=? Z.of_nat (Datatypes.length (buf r))))
      eqn:E2; [|discriminate].
    unfold ret in H. injection H as <- <-.
    apply andb_true_iff in E2 as [E3 E4]. unfold size.
    repeat split; lia.
Qed.

(** X1. Whenever [readExtHeader] returns, the buffer is unchanged and the
    cursor is at exactly [start + nHdrBytes], inside the buffer, whether
    the declared length matched the 148 bytes read or not. *)
Theorem readExtHeader_resynchronises
    (nHdrBytes : Z) (r r' : t) (h : ExtHeader.t) :
  Channel.readExtHeader nHdrBytes r = Ok (h, r') ->
  buf r' = buf r /\ pos r' = pos r + nHdrBytes /\ 0 <= pos r' <= size r.
Proof.
  intros H. apply readExtHeader_inv in H as (h0 & r1 & Hf & Hc).
  pose proof (readExtFields_takes _ _ _ Hf) as (Hb & Hp & Hi).
  destruct Hc as [(-> & _ & ->) | (_ & _ & -> & Hin)].
  - split; [exact Hb|]. split; [exact Hp|]. lia.
  - cbn [buf pos]. repeat split; lia.
Qed.

Lemma readExtHeader_resynchronises_witness :
  buf (mk (Inputs.zeros 200) 178) = buf (mk (Inputs.zeros 200) 28)
  /\ pos (mk (Inputs.zeros 200) 178) = pos (mk (Inputs.zeros 200) 28) + 150
  /\ 0 <= pos (mk (Inputs.zeros 200) 178) <= size (mk (Inputs.zeros 200) 28).
Proof.
  apply (readExtHeader_resynchronises 150 (mk (Inputs.zeros 200) 28)
           (mk (Inputs.zeros 200) 178)
           (ExtHeader.set_ExportFormat 0 Inputs.blank_header)).
  vm_compute. reflexivity.
Defined.

(** X2. The header that [readExtHeader] returns is the field sequence as
    read when the declared length is 148; for any other declared length
    it is the same record with [ExportFormat] overwritten by 0, so the
    export format stored in the file is then ignored. *)
Theorem readExtHeader_keeps_format_iff_aligned
    (nHdrBytes : Z) (r r' : t) (h : ExtHeader.t) :
  Channel.readExtHeader nHdrBytes r = Ok (h, r') ->
  exists h0 r1,
    Channel.readExtFields r = Ok (h0, r1)
    /\ h = (if nHdrBytes =? 148 then h0
            else ExtHeader.set_ExportFormat 0 h0)
    /\ ExtHeader.ExportFormat h
       = (if nHdrBytes =? 148 then ExtHeader.ExportFormat h0 else 0).
Proof.
  intros H. apply readExtHeader_inv in H as (h0 & r1 & Hf & Hc).
  exists h0, r1. split; [exact Hf|].
  destruct Hc as [(-> & -> & _) | (Hn & -> & _)].
  - split; reflexivity.
  - destruct (nHdrBytes =? 148) eqn:E; [lia|]. split; reflexivity.
Qed.

Lemma readExtHeader_keeps_format_iff_aligned_witness :
  exists h0 r1,
    Channel.readExtFields (mk (Inputs.zeros 200) 28) = Ok (h0, r1)
    /\ ExtHeader.set_ExportFormat 0 Inputs.blank_header
       = (if 150 =? 148 then h0 else ExtHeader.set_ExportFormat 0 h0)
    /\ ExtHeader.ExportFormat
         (ExtHeader.set_ExportFormat 0 Inputs.blank_header)
       = (if 150 =? 148 then ExtHeader.ExportFormat h0 else 0).
Proof.
  apply (readExtHeader_keeps_format_iff_aligned 150
           (mk (Inputs.zeros 200) 28) (mk (Inputs.zeros 200) 178)).
  vm_compute. reflexivity.
Defined.

(** X3. [readExtHeader] returns exactly when the 148 bytes of the field
    sequence are in the buffer and, for a declared length other than 148,
    [start + nHdrBytes] is a position of the buffer. A header declared
    shorter than 148 bytes still needs the 148 bytes to be there. *)
Theorem readExtHeader_returns_iff (nHdrBytes : Z) (r : t) :
  is_ok (Channel.readExtHeader nHdrBytes r) = true
  <-> (0 <= pos r /\ pos r + 148 <= size r
       /\ (nHdrBytes = 148 \/ 0 <= pos r + nHdrBytes <= size r)).
Proof.
  split.
  - destruct (Channel.readExtHeader nHdrBytes r) as [[h r']|e] eqn:H;
      [intros _ | discriminate].
    apply readExtHeader_inv in H as (h0 & r1 & Hf & Hc).
    pose proof (readExtFields_takes _ _ _ Hf) as (Hb & Hp & Hi).
    specialize (Hi ltac:(lia)).
    destruct Hc as [(-> & _) | (_ & _ & _ & Hin)];
      (split; [lia|]); (split; [lia|]); [left; reflexivity | right; exact Hin].
  - intros (Hpos & Hs & Hn).
    destruct (readExtFields_total r Hpos Hs) as [h0 Hf].
    destruct (Z.eq_dec nHdrBytes 148) as [-> | Hne].
    + rewrite (readExtHeader_aligned _ _ _ Hf). reflexivity.
    + destruct Hn as [Hn | Hin]; [contradiction|].
      unfold Channel.readExtHeader, bind, tell. rewrite Hf. cbn [pos].
      destruct (pos r + 148 - pos r =? nHdrBytes) eqn:E; [lia|].
      cbn [negb]. unfold seek, size in *. cbn [buf].
      destruct (0 <=? pos r + nHdrBytes) eqn:E1; [|lia].
      destruct (pos r + nHdrBytes <=? Z.of_nat (Datatypes.length (buf r)))
        eqn:E2; [|lia].
      reflexivity.
Qed.

(** ** The channel header as a whole *)

Lemma Channel_init_header (fileName : string)
    (verbose filterData fastload : bool) (r r' : t) (c : Channel.t) :
  Channel.init fileName verbose filterData fastload r = Ok (c, r') ->
  exists ra rb,
    Channel.readExtHeader (Channel.nHdrBytes c) ra
    = Ok (Channel.extHeader c, rb)
    /\ Channel.precision c = Channel.resolve_precision (Channel.extHeader c)
    /\ Channel.fastload c = fastload
    /\ Channel.filterData c = filterData.
Proof.
  intros H. unfold Channel.init in H. bind_inv H.
  unfold ret in H. injection H as <- _.
  do 2 eexists. split; [eassumption|]. repeat split.
Qed.

(** X4. A decoded channel has precision 8, 4 or 2: it is 4 for export
    format 1, 2 for export format 2 and 8 for every other value of the
    export format, so the body decoder never meets another width. *)
Theorem Channel_init_precision (fileName : string)
    (verbose filterData fastload : bool) (r r' : t) (c : Channel.t) :
  Channel.init fileName verbose filterData fastload r = Ok (c, r') ->
  Channel.precision c
  = (if ExtHeader.ExportFormat (Channel.extHeader c) =? 1 then 4
     else if ExtHeader.ExportFormat (Channel.extHeader c) =? 2 then 2
     else 8)
  /\ (Channel.precision c = 8 \/ Channel.precision c = 4
      \/ Channel.precision c = 2).
Proof.
  intros H. apply Channel_init_header in H as (ra & rb & _ & Hp & _).
  rewrite Hp. unfold Channel.resolve_precision, Channel.precDict.
  destruct (ExtHeader.ExportFormat (Channel.extHeader c) =? 0) eqn:E0;
    destruct (ExtHeader.ExportFormat (Channel.extHeader c) =? 1) eqn:E1;
    destruct (ExtHeader.ExportFormat (Channel.extHeader c) =? 2) eqn:E2;
    try lia; split; auto.
Qed.

Lemma Channel_init_precision_witness :
  Channel.precision Samples.decoded_record
  = (if ExtHeader.ExportFormat (Channel.extHeader Samples.decoded_record) =? 1
     then 4
     else if ExtHeader.ExportFormat
               (Channel.extHeader Samples.decoded_record) =? 2
     then 2
     else 8)
  /\ (Channel.precision Samples.decoded_record = 8
      \/ Channel.precision Samples.decoded_record = 4
      \/ Channel.precision Samples.decoded_record = 2).
Proof.
  apply (Channel_init_precision "run1" false false true
           (mk Inputs.record_bytes 0) Samples.record_end).
  vm_compute. reflexivity.
Defined.

(** X5. A decoded channel whose declared extended-header length is not
    148 has export format 0 and precision 8, whatever the stream holds
    at the place of the export format. *)
Theorem Channel_init_mismatch_is_double (fileName : string)
    (verbose filterData fastload : bool) (r r' : t) (c : Channel.t) :
  Channel.init fileName verbose filterData fastload r = Ok (c, r') ->
  Channel.nHdrBytes c <> 148 ->
  ExtHeader.ExportFormat (Channel.extHeader c) = 0
  /\ Channel.precision c = 8.
Proof.
  intros H Hn. apply Channel_init_header in H as (ra & rb & Hh & Hp & _).
  apply readExtHeader_inv in Hh as (h0 & r1 & _ & Hc).
  destruct Hc as [(He & _) | (_ & Hset & _)]; [contradiction|].
  rewrite Hp, Hset. split; reflexivity.
Qed.

Lemma Channel_init_mismatch_is_double_witness :
  ExtHeader.ExportFormat (Channel.extHeader Samples.decoded_long_header) = 0
  /\ Channel.precision Samples.decoded_long_header = 8.
Proof.
  apply (Channel_init_mismatch_is_double "run1" false false true
           (mk Samples.long_header_bytes 0)
           (mk Samples.long_header_bytes 196)).
  - vm_compute. reflexivity.
  - vm_compute. discriminate.
Defined.

(** ** The cursor after a channel header *)

Lemma lands_bind {A B} (m : M A) (k : A -> M B) :
  (forall r a r', m r = Ok (a, r') -> buf r' = buf r) ->
  (forall a, lands (k a)) -> lands (bind m k).
Proof.
  intros Hm Hk r b r'. unfold bind.
  destruct (m r) as [[a r1]|e] eqn:E; [|discriminate].
  intros H. apply Hm in E. apply Hk in H as [Hb Hp].
  unfold size in *. rewrite Hb, E in *. split; [reflexivity | exact Hp].
Qed.

Lemma lands_read_then_ret {A B} (n : Z) (f : list Byte.byte -> A)
    (g : A -> B) :
  lands (bind (bind (read_bytes n) (fun bs => ret (f bs)))
           (fun a => ret (g a))).
Proof.
  intros r b r'. unfold bind, ret.
  destruct (read_bytes n r) as [[bs r1]|e] eqn:E; [|discriminate].
  intros H. injection H as _ <-.
  apply read_bytes_inv in E as (Hb & Hp & Hn & Hpos & Hs).
  unfold size in *. rewrite Hb. split; [reflexivity | lia].
Qed.

Lemma readExtHeader_keeps_buffer (nHdrBytes : Z) (r : t)
    (h : ExtHeader.t) (r' : t) :
  Channel.readExtHeader nHdrBytes r = Ok (h, r') -> buf r' = buf r.
Proof.
  intros H. apply readExtHeader_inv in H as (h0 & r1 & Hf & Hc).
  pose proof (readExtFields_consumes _ _ _ Hf) as [Hb _].
  destruct Hc as [(_ & _ & ->) | (_ & _ & -> & _)]; [exact Hb | reflexivity].
Qed.

(** X6. Whenever [Channel.__init__] returns, the buffer is the one it
    was given and the cursor is inside it, also when the extended-header
    fallback has moved the cursor backward. *)
Theorem Channel_init_cursor_in_buffer (fileName : string)
    (verbose filterData fastload : bool) :
  lands (Channel.init fileName verbose filterData fastload).
Proof.
  unfold Channel.init. cbv zeta.
  repeat first
    [ apply lands_read_then_ret
    | apply lands_bind;
      [ first [ apply advances_read_int16 | apply advances_read_int32
              | apply advances_read_double | apply advances_read_char
              | apply advances_read_byte | apply advances_read_string
              | apply readExtHeader_keeps_buffer
              | apply (advances_read_many _ 8), advances_read_double ]
      | intros ? ] ].
Qed.

(** ** What the body decoder changes *)

Lemma set_data_idem (c : Channel.t) :
  Channel.set_data (Channel.data c) c = c.
Proof. destruct c. reflexivity. Qed.

Lemma store_data_inv
    (lfilter : list float -> float -> list float -> list float)
    (c c' : Channel.t) (d : option samples) (r1 r' : t) :
  Channel.store_data lfilter c d r1 = Ok (c', r') ->
  c' = Channel.set_data (Channel.data c') c /\ r' = r1
  /\ (Channel.filterData c = false -> Channel.data c' = d)
  /\ (Channel.data c' = None -> d = None).
Proof.
  unfold Channel.store_data, Channel.filter, Channel.signal_lfilter.
  cbn zeta.
  change (Channel.filterData (Channel.set_data d c))
    with (Channel.filterData c).
  change (Channel.data (Channel.set_data d c)) with d.
  destruct (Channel.filterData c) eqn:Ef.
  - destruct d as [d|]; [|discriminate].
    destruct (values d) as [|x xs]; [discriminate|].
    unfold ret. intros H. injection H as <- <-.
    repeat split; try reflexivity; intros E; discriminate E.
  - unfold ret. intros H. injection H as <- <-.
    repeat split; try reflexivity; intros E; exact E.
Qed.

Lemma fromfile_keeps_buffer (d : Np.dtype) (count : Z) (r : t)
    (xs : list float) (r' : t) :
  Np.fromfile d count r = Ok (xs, r') -> buf r' = buf r.
Proof. unfold Np.fromfile. intros H. injection H as _ <-. reflexivity. Qed.

Lemma advances_scaled_int16 (f : Z -> float) :
  advances 2 (bind read_int16 (fun v => ret (f v))).
Proof.
  eapply advances_bind;
    [apply advances_read_int16 | intros v; apply advances_ret | reflexivity].
Qed.

Lemma bind_returns {A B} (m : M A) (k : A -> M B) (r r' : t) (b : B) :
  bind m k r = Ok (b, r') ->
  exists a r1, m r = Ok (a, r1) /\ k a r1 = Ok (b, r').
Proof.
  unfold bind. destruct (m r) as [[a r1]|e]; [|discriminate].
  intros H. exists a, r1. split; [reflexivity | exact H].
Qed.

Lemma keeps_ret {A} (a : A) : keeps_buffer (ret a).
Proof. intros r x r' H. unfold ret in H. injection H as _ <-. reflexivity. Qed.

Lemma keeps_bind {A B} (m : M A) (k : A -> M B) :
  keeps_buffer m -> (forall a, keeps_buffer (k a)) -> keeps_buffer (bind m k).
Proof.
  intros Hm Hk r b r' H.
  apply bind_returns in H as (a & r1 & E & H).
  apply Hm in E. apply Hk in H. congruence.
Qed.

Lemma keeps_of_advances {A} (w : Z) (m : M A) :
  advances w m -> keeps_buffer m.
Proof. intros Ha r a r' H. apply Ha in H. tauto. Qed.

Lemma keeps_fromfile (d : Np.dtype) (count : Z) :
  keeps_buffer (Np.fromfile d count).
Proof. intros r xs r'. apply fromfile_keeps_buffer. Qed.

(** Closes [keeps_buffer] for the decoding chains of [readData]. *)
Ltac keeps_chain :=
  repeat first
    [ apply keeps_ret
    | apply keeps_fromfile
    | apply (keeps_of_advances 8), advances_read_double
    | eapply keeps_of_advances, advances_read_many, advances_read_double
    | eapply keeps_of_advances, advances_read_many, advances_read_float
    | eapply keeps_of_advances, advances_read_many, advances_scaled_int16
    | apply keeps_bind; [ | intros ? ] ].

(** The decoding step of [readData] in its cases. *)
Ltac readData_cases c :=
  unfold Channel.readData;
  destruct (Channel.broken c) eqn:Hbroken;
  [ | destruct (Channel.fastload c) eqn:Hfast;
      destruct (Channel.precision c =? 8) eqn:Hp8;
      destruct (Channel.precision c =? 4) eqn:Hp4;
      destruct (Channel.precision c =? 2) eqn:Hp2;
      cbn [orb] ].

(** X7. [readData] changes nothing of a channel but its samples: the
    channel it returns is the one it was given with [data] replaced, so
    the declared length, the precision and the flags stay as decoded, and
    the buffer of the reader is unchanged. *)
Theorem readData_changes_data_only
    (lfilter : list float -> float -> list float -> list float)
    (c c' : Channel.t) (r r' : t) :
  Channel.readData lfilter c r = Ok (c', r') ->
  c' = Channel.set_data (Channel.data c') c /\ buf r' = buf r.
Proof.
  readData_cases c; intros H;
    [ unfold ret in H; injection H as <- <-;
      rewrite set_data_idem; split; reflexivity | .. ];
    apply bind_returns in H as (d & r1 & Hd & H);
    apply store_data_inv in H as (Hc & -> & _);
    (split; [exact Hc|]);
    revert Hd; generalize r d r1;
    match goal with
    | |- forall r0 d0 r2, ?m r0 = Ok (d0, r2) -> _ =>
        change (keeps_buffer m)
    end;
    keeps_chain.
Qed.

Lemma readData_changes_data_only_witness :
  Channel.set_data (Some (NdArray [0; 100]%float))
    (Inputs.channel false true "U" 2 2 None)
  = Channel.set_data
      (Channel.data
         (Channel.set_data (Some (NdArray [0; 100]%float))
            (Inputs.channel false true "U" 2 2 None)))
      (Inputs.channel false true "U" 2 2 None)
  /\ buf (mk Inputs.body_edges 20) = buf (mk Inputs.body_edges 0).
Proof.
  apply (readData_changes_data_only Inputs.no_filter
           (Inputs.channel false true "U" 2 2 None)
           (Channel.set_data (Some (NdArray [0; 100]%float))
              (Inputs.channel false true "U" 2 2 None))
           (mk Inputs.body_edges 0) (mk Inputs.body_edges 20)).
  vm_compute. reflexivity.
Defined.

(** ** The number of samples *)

Lemma read_many_length {A} (n : nat) (rd : M A) (r r' : t) (xs : list A) :
  read_many n rd r = Ok (xs, r') -> Datatypes.length xs = n.
Proof.
  revert r r' xs. induction n as [|n IH]; intros r r' xs; cbn [read_many].
  - unfold ret. intros H. injection H as <- _. reflexivity.
  - intros H. apply bind_returns in H as (x & r1 & _ & H).
    apply bind_returns in H as (ys & r2 & Hys & H).
    unfold ret in H. injection H as <- _. cbn. f_equal. eapply IH, Hys.
Qed.

Lemma chunks_count (n w : nat) (bs : list Byte.byte) :
  Datatypes.length (Np.chunks n w bs) = n.
Proof.
  revert bs. induction n as [|n IH]; intros bs; cbn; [reflexivity|].
  f_equal. apply IH.
Qed.

Lemma spec_body_length (c : Channel.t) (r : t) :
  Datatypes.length (Channel.spec_body c r) = Z.to_nat (Channel.length c).
Proof.
  unfold Channel.spec_body. cbv zeta.
  destruct (Channel.precision c =? 2); [|destruct (Channel.precision c =? 4)];
    rewrite length_map; apply chunks_count.
Qed.

(** X8. On the slow path without the filter, a body read that returns
    has stored a Python list of exactly [max(0, length)] samples and has
    moved the cursor by that many items of the channel's width, after the
    16 bytes of MinValue and MaxValue for precision 2. A negative declared
    length gives an empty list. *)
Theorem readData_slow_sample_count
    (lfilter : list float -> float -> list float -> list float)
    (c c' : Channel.t) (r r' : t) :
  Channel.broken c = false ->
  Channel.fastload c = false ->
  Channel.filterData c = false ->
  Channel.precision c = 8 \/ Channel.precision c = 4
  \/ Channel.precision c = 2 ->
  Channel.readData lfilter c r = Ok (c', r') ->
  exists xs,
    Channel.data c' = Some (PyList xs)
    /\ Z.of_nat (Datatypes.length xs) = Z.max 0 (Channel.length c)
    /\ pos r' = pos r + (if Channel.precision c =? 2 then 16 else 0)
                 + Channel.precision c * Z.max 0 (Channel.length c).
Proof.
  intros Hb Hf Hfd Hp H. unfold Channel.readData in H.
  rewrite Hb, Hf in H.
  apply bind_returns in H as (d & r1 & Hd & H).
  apply store_data_inv in H as (_ & -> & Hdata & _).
  rewrite (Hdata Hfd). clear Hdata.
  destruct Hp as [Hp | [Hp | Hp]]; rewrite Hp in *;
    cbn [Z.eqb Pos.eqb] in Hd |- *.
  - apply bind_returns in Hd as (xs & r2 & Hxs & Hd).
    unfold ret in Hd. injection Hd as <- <-.
    exists xs. split; [reflexivity|].
    pose proof (read_many_length _ _ _ _ _ Hxs) as Hl.
    apply (advances_read_many _ 8 _ advances_read_double) in Hxs as [_ Hpos].
    lia.
  - apply bind_returns in Hd as (xs & r2 & Hxs & Hd).
    unfold ret in Hd. injection Hd as <- <-.
    exists xs. split; [reflexivity|].
    pose proof (read_many_length _ _ _ _ _ Hxs) as Hl.
    apply (advances_read_many _ 4 _ advances_read_float) in Hxs as [_ Hpos].
    lia.
  - apply bind_returns in Hd as (lo & r2 & Hlo & Hd).
    apply bind_returns in Hd as (hi & r3 & Hhi & Hd).
    apply bind_returns in Hd as (xs & r4 & Hxs & Hd).
    unfold ret in Hd. injection Hd as <- <-.
    exists xs. split; [reflexivity|].
    pose proof (read_many_length _ _ _ _ _ Hxs) as Hl.
    apply advances_read_double in Hlo as [_ Hp1].
    apply advances_read_double in Hhi as [_ Hp2].
    apply (advances_read_many _ 2 _ (advances_scaled_int16 _)) in Hxs
      as [_ Hpos].
    lia.
Qed.

Lemma readData_slow_sample_count_witness :
  exists xs,
    Channel.data
      (Channel.set_data (Some (PyList [0; 100]%float))
         (Inputs.channel false false "U" 2 2 None))
    = Some (PyList xs)
    /\ Z.of_nat (Datatypes.length xs) = Z.max 0 2
    /\ pos (mk Inputs.body_edges 20)
       = pos (mk Inputs.body_edges 0) + (if 2 =? 2 then 16 else 0)
         + 2 * Z.max 0 2.
Proof.
  apply (readData_slow_sample_count Inputs.no_filter
           (Inputs.channel false false "U" 2 2 None)
           (Channel.set_data (Some (PyList [0; 100]%float))
              (Inputs.channel false false "U" 2 2 None))
           (mk Inputs.body_edges 0) (mk Inputs.body_edges 20)).
  - reflexivity.
  - reflexivity.
  - reflexivity.
  - right. right. reflexivity.
  - vm_compute. reflexivity.
Defined.

(** X9. On the fast path, when the declared length is not negative and
    the bytes of the body are in the buffer, [readData] returns, stores
    exactly [length] samples decoded as the format lays them out
    (contiguous floats for precision 8 and 4; MinValue, MaxValue and
    unsigned 16-bit values scaled by [(MaxValue - MinValue) / 32767] for
    precision 2), filtered if the filter is on, and leaves the cursor
    right behind the body. With the filter on there has to be a sample:
    the filter refuses an empty sequence. *)
Theorem readData_fast_decodes
    (lfilter : list float -> float -> list float -> list float)
    (c : Channel.t) (r : t) :
  Channel.broken c = false ->
  Channel.fastload c = true ->
  Channel.precision c = 8 \/ Channel.precision c = 4
  \/ Channel.precision c = 2 ->
  0 <= Channel.length c ->
  Channel.filterData c = false \/ 0 < Channel.length c ->
  0 <= pos r ->
  pos r + Channel.body_size c <= size r ->
  exists c' r',
    Channel.readData lfilter c r = Ok (c', r')
    /\ option_map values (Channel.data c')
       = Some (Channel.stored_values lfilter c (Channel.spec_body c r))
    /\ Z.of_nat (Datatypes.length (Channel.spec_body c r)) = Channel.length c
    /\ pos r' = pos r + Channel.body_size c.
Proof.
  intros Hb Hf Hp Hl Hne Hpos Hs.
  destruct (readData_fast_refines_spec lfilter c r Hb Hf Hp Hl Hne Hpos Hs)
    as (c' & r' & E & _ & Hp' & Hv).
  exists c', r'. split; [exact E|]. split; [exact Hv|].
  split; [|exact Hp']. rewrite spec_body_length. lia.
Qed.

Lemma readData_fast_decodes_witness :
  exists c' r',
    Channel.readData Inputs.no_filter
      (Inputs.channel false true "U" 2 2 None) (mk Inputs.body_edges 0)
    = Ok (c', r')
    /\ option_map values (Channel.data c')
       = Some (Channel.stored_values Inputs.no_filter
                 (Inputs.channel false true "U" 2 2 None)
                 (Channel.spec_body (Inputs.channel false true "U" 2 2 None)
                    (mk Inputs.body_edges 0)))
    /\ Z.of_nat (Datatypes.length
                   (Channel.spec_body (Inputs.channel false true "U" 2 2 None)
                      (mk Inputs.body_edges 0)))
       = Channel.length (Inputs.channel false true "U" 2 2 None)
    /\ pos r' = pos (mk Inputs.body_edges 0)
                + Channel.body_size (Inputs.channel false true "U" 2 2 None).
Proof.
  apply (readData_fast_decodes Inputs.no_filter
           (Inputs.channel false true "U" 2 2 None) (mk Inputs.body_edges 0)).
  - reflexivity.
  - reflexivity.
  - right. right. reflexivity.
  - vm_compute. discriminate.
  - left. reflexivity.
  - vm_compute. discriminate.
  - vm_compute. discriminate.
Defined.

(** X10. On the slow path, under the same conditions (a length that is
    not negative, the bytes of the body in the buffer, and a sample to
    filter when the filter is on), [readData] decodes the same samples
    for precision 8 and 4, and for precision 2 as long as every raw
    16-bit sample is below 0x8000 (the slow path reads them signed). *)
Theorem readData_slow_decodes
    (lfilter : list float -> float -> list float -> list float)
    (c : Channel.t) (r : t) :
  Channel.broken c = false ->
  Channel.fastload c = false ->
  Channel.precision c = 8 \/ Channel.precision c = 4
  \/ (Channel.precision c = 2
      /\ Forall (fun bs => le_unsigned bs < 32768) (Channel.raw_samples c r)) ->
  0 <= Channel.length c ->
  Channel.filterData c = false \/ 0 < Channel.length c ->
  0 <= pos r ->
  pos r + Channel.body_size c <= size r ->
  exists c' r',
    Channel.readData lfilter c r = Ok (c', r')
    /\ option_map values (Channel.data c')
       = Some (Channel.stored_values lfilter c (Channel.spec_body c r))
    /\ Z.of_nat (Datatypes.length (Channel.spec_body c r)) = Channel.length c
    /\ pos r' = pos r + Channel.body_size c.
Proof.
  intros Hb Hf Hp Hl Hne Hpos Hs.
  destruct (readData_slow_refines_spec lfilter c r Hb Hf Hp Hl Hne Hpos Hs)
    as (c' & r' & E & _ & Hp' & Hv).
  exists c', r'. split; [exact E|]. split; [exact Hv|].
  split; [|exact Hp']. rewrite spec_body_length. lia.
Qed.

Lemma readData_slow_decodes_witness :
  exists c' r',
    Channel.readData Inputs.no_filter
      (Inputs.channel false false "U" 2 2 None) (mk Inputs.body_edges 0)
    = Ok (c', r')
    /\ option_map values (Channel.data c')
       = Some (Channel.stored_values Inputs.no_filter
                 (Inputs.channel false false "U" 2 2 None)
                 (Channel.spec_body (Inputs.channel false false "U" 2 2 None)
                    (mk Inputs.body_edges 0)))
    /\ Z.of_nat (Datatypes.length
                   (Channel.spec_body (Inputs.channel false false "U" 2 2 None)
                      (mk Inputs.body_edges 0)))
       = Channel.length (Inputs.channel false false "U" 2 2 None)
    /\ pos r' = pos (mk Inputs.body_edges 0)
                + Channel.body_size (Inputs.channel false false "U" 2 2 None).
Proof.
  apply (readData_slow_decodes Inputs.no_filter
           (Inputs.channel false false "U" 2 2 None) (mk Inputs.body_edges 0)).
  - reflexivity.
  - reflexivity.
  - right. right. split; [reflexivity|].
    vm_compute. repeat constructor.
  - vm_compute. discriminate.
  - left. reflexivity.
  - vm_compute. discriminate.
  - vm_compute. discriminate.
Defined.

Lemma readData_paths_agree_witness :
  exists cf cs r',
    Channel.readData Inputs.no_filter
      (Channel.set_fastload true (Inputs.channel false true "U" 2 2 None))
      (mk Inputs.body_edges 0) = Ok (cf, r')
    /\ Channel.readData Inputs.no_filter
         (Channel.set_fastload false (Inputs.channel false true "U" 2 2 None))
         (mk Inputs.body_edges 0) = Ok (cs, r')
    /\ option_map values (Channel.data cf)
       = option_map values (Channel.data cs).
Proof.
  apply (readData_paths_agree Inputs.no_filter
           (Inputs.channel false true "U" 2 2 None) (mk Inputs.body_edges 0)).
  - reflexivity.
  - right. right. split; [reflexivity|].
    vm_compute. repeat constructor.
  - vm_compute. discriminate.
  - left. reflexivity.
  - vm_compute. discriminate.
  - vm_compute. discriminate.
Defined.

(** ** A body that ends early *)

Lemma read_many_short {A} (n w : nat) (f : list Byte.byte -> A) (r : t) :
  0 <= pos r <= size r ->
  size r < pos r + Z.of_nat n * Z.of_nat w ->
  read_many n (bind (read_bytes (Z.of_nat w)) (fun bs => ret (f bs))) r
  = Err OutOfBounds.
Proof.
  revert r. induction n as [|n IH]; intros r Hpos Hs; cbn [read_many].
  - lia.
  - unfold bind at 1. unfold bind at 1.
    destruct (Z_le_gt_dec (pos r + Z.of_nat w) (size r)) as [Hle | Hgt].
    + rewrite read_bytes_ok by lia. unfold ret at 1. unfold bind at 1.
      rewrite IH; [reflexivity | |];
        unfold size in *; cbn [buf pos]; lia.
    + unfold read_bytes.
      destruct (pos r + Z.of_nat w <=? size r) eqn:E; [lia|].
      rewrite andb_false_r. reflexivity.
Qed.

(** X12. A body of precision 8 or 4 that ends before the declared number
    of samples: the slow path raises, while the fast path returns without
    an error, stores the samples that are complete in the buffer, in the
    order of the buffer and fewer than declared (filtered if the filter
    is on, which needs one complete sample), and leaves the cursor at the
    end of the buffer. *)
Theorem readData_truncated_body
    (lfilter : list float -> float -> list float -> list float)
    (c : Channel.t) (r : t) :
  Channel.broken c = false ->
  Channel.precision c = 8 \/ Channel.precision c = 4 ->
  0 <= pos r <= size r ->
  size r < pos r + Channel.precision c * Channel.length c ->
  Channel.filterData c = false \/ Channel.precision c <= size r - pos r ->
  Channel.readData lfilter (Channel.set_fastload false c) r = Err OutOfBounds
  /\ exists c' r',
       Channel.readData lfilter (Channel.set_fastload true c) r = Ok (c', r')
       /\ option_map values (Channel.data c')
          = Some (Channel.stored_values lfilter c
                    (map (if Channel.precision c =? 8 then f64_of_bytes
                          else f32_of_bytes)
                       (Np.chunks
                          (Z.to_nat ((size r - pos r) / Channel.precision c))
                          (Z.to_nat (Channel.precision c))
                          (drop (Z.to_nat (pos r)) (buf r)))))
       /\ (size r - pos r) / Channel.precision c < Channel.length c
       /\ buf r' = buf r
       /\ pos r' = size r.
Proof.
  intros Hb Hp Hpos Hs Hne. unfold Channel.readData.
  change (Channel.broken (Channel.set_fastload false c))
    with (Channel.broken c).
  change (Channel.broken (Channel.set_fastload true c))
    with (Channel.broken c).
  cbn [Channel.fastload Channel.set_fastload Channel.precision Channel.length].
  rewrite Hb. split.
  - unfold bind at 1.
    destruct Hp as [Hp | Hp]; rewrite Hp in *; cbn [Z.eqb Pos.eqb].
    + unfold bind at 1.
      change read_double
        with (bind (read_bytes (Z.of_nat 8)) (fun bs => ret (f64_of_bytes bs))).
      rewrite read_many_short by lia. reflexivity.
    + unfold bind at 1.
      change read_float
        with (bind (read_bytes (Z.of_nat 4)) (fun bs => ret (f32_of_bytes bs))).
      rewrite read_many_short by lia. reflexivity.
  - assert (0 < Channel.precision c) as Hpp by (destruct Hp; lia).
    assert ((size r - pos r) / Channel.precision c < Channel.length c) as Hlt
      by (apply Z.div_lt_upper_bound; lia).
    assert (Channel.filterData (Channel.set_fastload true c) = false
            \/ 0 < (size r - pos r) / Channel.precision c) as Hne'.
    { destruct Hne as [Hne | Hne]; [left; exact Hne | right].
      apply Z.div_str_pos. lia. }
    unfold bind at 1. unfold bind at 1.
    destruct Hp as [Hp | Hp]; rewrite Hp in *; cbn [Z.eqb Pos.eqb orb].
    + rewrite (fromfile_short Np.f8) by (cbn [Np.itemsize]; lia).
      cbn [Np.itemsize Np.item].
      match goal with
      | |- context [ret (Some (NdArray ?xs)) ?r1] =>
          destruct (store_data_spec lfilter (Channel.set_fastload true c)
                      (NdArray xs) r1) as (c' & E & Ed);
          [ destruct Hne' as [Hne' | Hne'];
            [ left; exact Hne'
            | right; cbn [values]; apply chunks_nonempty; exact Hne' ]
          | exists c', r1 ]
      end.
      split; [exact E|]. split; [exact Ed|]. split; [exact Hlt|].
      split; reflexivity.
    + rewrite (fromfile_short Np.f4) by (cbn [Np.itemsize]; lia).
      cbn [Np.itemsize Np.item].
      match goal with
      | |- context [ret (Some (NdArray32 ?xs)) ?r1] =>
          destruct (store_data_spec lfilter (Channel.set_fastload true c)
                      (NdArray32 xs) r1) as (c' & E & Ed);
          [ destruct Hne' as [Hne' | Hne'];
            [ left; exact Hne'
            | right; cbn [values]; apply chunks_nonempty; exact Hne' ]
          | exists c', r1 ]
      end.
      split; [exact E|]. split; [exact Ed|]. split; [exact Hlt|].
      split; reflexivity.
Qed.

Lemma readData_truncated_body_witness :
  Channel.readData Inputs.no_filter
    (Channel.set_fastload false (Inputs.channel false true "U" 8 3 None))
    (mk Samples.body_cut 0) = Err OutOfBounds
  /\ exists c' r',
       Channel.readData Inputs.no_filter
         (Channel.set_fastload true (Inputs.channel false true "U" 8 3 None))
         (mk Samples.body_cut 0) = Ok (c', r')
       /\ option_map values (Channel.data c')
          = Some (Channel.stored_values Inputs.no_filter
                    (Inputs.channel false true "U" 8 3 None)
                    (map (if 8 =? 8 then f64_of_bytes else f32_of_bytes)
                       (Np.chunks
                          (Z.to_nat ((size (mk Samples.body_cut 0) - 0) / 8))
                          (Z.to_nat 8)
                          (drop (Z.to_nat 0) Samples.body_cut))))
       /\ (size (mk Samples.body_cut 0) - 0) / 8 < 3
       /\ buf r' = Samples.body_cut
       /\ pos r' = size (mk Samples.body_cut 0).
Proof.
  apply (readData_truncated_body Inputs.no_filter
           (Inputs.channel false true "U" 8 3 None) (mk Samples.body_cut 0)).
  - reflexivity.
  - left. reflexivity.
  - vm_compute. split; discriminate.
  - vm_compute. reflexivity.
  - left. reflexivity.
Defined.

(** The example by its values: of the three declared samples the two
    complete ones, 1.0 and 2.0, are stored, and the cursor is at the end
    of the 20 bytes, behind the four bytes of the third sample. *)
Lemma readData_truncated_body_example :
  exists c' r',
    Channel.readData Inputs.no_filter
      (Inputs.channel false true "U" 8 3 None) (mk Samples.body_cut 0)
    = Ok (c', r')
    /\ Channel.data c' = Some (NdArray [1; 2]%float)
    /\ pos r' = 20.
Proof.
  do 2 eexists. split; [vm_compute; reflexivity|]. split; reflexivity.
Qed.

(** ** Header and body together *)

Lemma decode_step_some {A} (m : M A) (k : A -> M (option samples)) :
  (forall a r d r', k a r = Ok (d, r') -> d <> None) ->
  forall r d r', bind m k r = Ok (d, r') -> d <> None.
Proof.
  intros Hk r d r' H. apply bind_returns in H as (a & r1 & _ & H).
  eapply Hk, H.
Qed.

Lemma ret_some (x : samples) (r : t) (d : option samples) (r' : t) :
  ret (Some x) r = Ok (d, r') -> d <> None.
Proof. unfold ret. intros H. injection H as <- _. discriminate. Qed.

(** X13. For a channel decoded by [Channel.__init__], a body read that
    returns has always assigned the samples: the channel is not broken
    and its precision is one the two paths handle, so the case in which
    the fast path assigns nothing cannot occur. The declared length and
    the precision are those of the header. *)
Theorem decoded_channel_gets_samples
    (lfilter : list float -> float -> list float -> list float)
    (fileName : string) (verbose filterData fastload : bool)
    (r r1 r2 : t) (c c' : Channel.t) :
  Channel.init fileName verbose filterData fastload r = Ok (c, r1) ->
  Channel.readData lfilter c r1 = Ok (c', r2) ->
  Channel.data c' <> None
  /\ Channel.length c' = Channel.length c
  /\ Channel.precision c' = Channel.precision c.
Proof.
  intros Hi H.
  pose proof (Channel_init_names _ _ _ _ _ _ _ Hi)
    as (_ & _ & _ & _ & Hb & _ & Hp).
  pose proof (resolve_precision_cases (Channel.extHeader c)) as Hcases.
  rewrite <- Hp in Hcases. clear Hp Hi.
  unfold Channel.readData in H. rewrite Hb in H.
  apply bind_returns in H as (d & r3 & Hd & H).
  apply store_data_inv in H as (Hc & _ & _ & Hnone).
  split; [|rewrite Hc; split; reflexivity].
  intros Hn. apply Hnone in Hn. revert Hn.
  destruct (Channel.fastload c);
    destruct Hcases as [Hp | [Hp | Hp]]; rewrite Hp in Hd;
    cbn [Z.eqb Pos.eqb orb] in Hd; revert Hd;
    repeat first [ apply ret_some | apply decode_step_some; intros ? ].
Qed.

Lemma decoded_channel_gets_samples_witness :
  Channel.data
    (Channel.set_data (Some (NdArray [0; 0; 0]%float)) Samples.decoded_record)
  <> None
  /\ Channel.length
       (Channel.set_data (Some (NdArray [0; 0; 0]%float))
          Samples.decoded_record)
     = Channel.length Samples.decoded_record
  /\ Channel.precision
       (Channel.set_data (Some (NdArray [0; 0; 0]%float))
          Samples.decoded_record)
     = Channel.precision Samples.decoded_record.
Proof.
  apply (decoded_channel_gets_samples Inputs.no_filter "run1" false false true
           (mk Samples.file_bytes 0) (mk Samples.file_bytes 194)
           (mk Samples.file_bytes 218)).
  - vm_compute. reflexivity.
  - vm_compute. reflexivity.
Defined.

(** ** When a group can be built *)

Lemma reciprocal_defined (d : samples) (x : float) :
  is_ok (Group.reciprocal d x) = true
  <-> ((exists xs, d = NdArray xs \/ d = NdArray32 xs)
       \/ PrimFloat.eqb x 0 = false).
Proof.
  destruct d as [xs | xs | xs]; cbn [Group.reciprocal]; unfold Py.truediv.
  - destruct (PrimFloat.eqb x 0); cbn [is_ok]; split.
    + discriminate.
    + intros [[ys [Hy | Hy]] | H]; discriminate.
    + intros _. right. reflexivity.
    + reflexivity.
  - cbn [is_ok]. split; [|reflexivity].
    intros _. left. exists xs. left. reflexivity.
  - cbn [is_ok]. split; [|reflexivity].
    intros _. left. exists xs. right. reflexivity.
Qed.

(** X14. [Group.__init__] returns a group exactly when some channel of
    the list is flagged as time, the first such channel has its samples
    and at least two of them, and the second sample is not zero unless
    the samples are a NumPy array, of float64 or of float32. In every
    other case it raises. *)
Theorem Group_init_returns_iff
    (st : store) (channels : list ref) (fileName : string) (verbose : bool) :
  is_ok (Group.init st channels fileName verbose) = true
  <-> exists tc d x,
        List.find (fun r => Channel.isTime (st r)) channels = Some tc
        /\ Channel.data (st tc) = Some d
        /\ values d !! 1%nat = Some x
        /\ ((exists xs, d = NdArray xs \/ d = NdArray32 xs)
            \/ PrimFloat.eqb x 0 = false).
Proof.
  split.
  - destruct (Group.init st channels fileName verbose) as [g|e] eqn:E;
      [intros _ | discriminate].
    apply Group_init_inv in E as (tc & d & x & f & Hf & Hd & Hx & Hr & _).
    exists tc, d, x. repeat split; try assumption.
    apply reciprocal_defined. rewrite Hr. reflexivity.
  - intros (tc & d & x & Hf & Hd & Hx & Hdiv).
    apply reciprocal_defined in Hdiv.
    destruct (Group.reciprocal d x) as [f|e] eqn:Hr; [|discriminate].
    rewrite (Group_init_ok _ _ _ _ _ _ _ _ Hf Hd Hx Hr). reflexivity.
Qed.

Lemma find_first {A} (f : A -> bool) (l : list A) (x : A) :
  List.find f l = Some x ->
  exists pre post,
    l = pre ++ x :: post /\ f x = true /\ forallb (fun a => negb (f a)) pre = true.
Proof.
  induction l as [|a l IH]; cbn [List.find]; [discriminate|].
  destruct (f a) eqn:Ea.
  - intros H. injection H as <-. exists [], l. repeat split. exact Ea.
  - intros H. apply IH in H as (pre & post & -> & Hx & Hpre).
    exists (a :: pre), post. cbn. rewrite Ea. repeat split; assumption.
Qed.

(** X15. In a group that [Group.__init__] returns, [ChannelX] is the
    first channel of the list that is flagged as time, [ChannelsY] are
    the channels that are not flagged, in their order, and the group is
    named after [ChannelX]. A further flagged channel is neither
    [ChannelX] nor among [ChannelsY]. *)
Theorem Group_init_structure
    (st : store) (channels : list ref) (fileName : string) (verbose : bool)
    (g : Group.t) :
  Group.init st channels fileName verbose = Ok g ->
  Group.Channels g = channels
  /\ Group.ChannelsY g
     = List.filter (fun r => negb (Channel.isTime (st r))) channels
  /\ (forall r, Channel.isTime (st r) = true -> ~ In r (Group.ChannelsY g))
  /\ exists tc pre post,
       Group.ChannelX g = Some tc
       /\ Group.Name g = Channel.Name (st tc)
       /\ channels = pre ++ tc :: post
       /\ Channel.isTime (st tc) = true
       /\ Forall (fun r => Channel.isTime (st r) = false) pre.
Proof.
  intros H. apply Group_init_inv in H as (tc & d & x & f & Hf & _ & _ & _ & ->).
  cbn [group_for Group.Channels Group.ChannelsY Group.ChannelX Group.Name].
  split; [reflexivity|]. split; [reflexivity|]. split.
  - intros r Hr Hin. apply filter_In in Hin as [_ Hn].
    rewrite Hr in Hn. discriminate.
  - apply find_first in Hf as (pre & post & -> & Ht & Hpre).
    exists tc, pre, post. repeat split; try assumption.
    apply List.Forall_forall. intros r Hin.
    rewrite forallb_forall in Hpre. specialize (Hpre r Hin).
    destruct (Channel.isTime (st r)); [discriminate | reflexivity].
Qed.

Lemma Group_init_structure_witness :
  Group.Channels
    (group_of Samples.st_two_clocks [0; 1; 2; 3]%nat "unknown" false 1%nat
       0.5 (1 / 0.5)) = [0; 1; 2; 3]%nat
  /\ Group.ChannelsY
       (group_of Samples.st_two_clocks [0; 1; 2; 3]%nat "unknown" false 1%nat
          0.5 (1 / 0.5))
     = List.filter (fun r => negb (Channel.isTime (Samples.st_two_clocks r)))
         [0; 1; 2; 3]%nat
  /\ (forall r, Channel.isTime (Samples.st_two_clocks r) = true ->
        ~ In r (Group.ChannelsY
                  (group_of Samples.st_two_clocks [0; 1; 2; 3]%nat "unknown"
                     false 1%nat 0.5 (1 / 0.5))))
  /\ exists tc pre post,
       Group.ChannelX
         (group_of Samples.st_two_clocks [0; 1; 2; 3]%nat "unknown" false
            1%nat 0.5 (1 / 0.5)) = Some tc
       /\ Group.Name
            (group_of Samples.st_two_clocks [0; 1; 2; 3]%nat "unknown" false
               1%nat 0.5 (1 / 0.5))
          = Channel.Name (Samples.st_two_clocks tc)
       /\ [0; 1; 2; 3]%nat = pre ++ tc :: post
       /\ Channel.isTime (Samples.st_two_clocks tc) = true
       /\ Forall (fun r => Channel.isTime (Samples.st_two_clocks r) = false)
            pre.
Proof.
  apply (Group_init_structure Samples.st_two_clocks [0; 1; 2; 3]%nat
           "unknown" false).
  reflexivity.
Defined.

(** ** A time channel that does not advance *)

Lemma float_zero_cases (x : float) :
  PrimFloat.eqb x 0 = true -> x = 0%float \/ x = (-0)%float.
Proof.
  intros H. rewrite FloatAxioms.eqb_spec in H.
  rewrite <- (SF2Prim_Prim2SF x).
  destruct (Prim2SF x) as [s | s | | s m e] eqn:E.
  - destruct s; [right | left]; reflexivity.
  - destruct s; vm_compute in H; discriminate H.
  - vm_compute in H. discriminate H.
  - destruct s; vm_compute in H; discriminate H.
Qed.

(** X16. When the second sample of the time channel is zero, a Python
    list of samples makes [Group.__init__] raise the division error,
    while a NumPy array gives a group whose frequency is infinite and
    whose interval string is "0.000" (or "-0.000") in microseconds. *)
Theorem Group_init_zero_second_sample
    (st : store) (channels : list ref) (fileName : string) (verbose : bool)
    (tc : ref) (d : samples) (x : float) :
  List.find (fun r => Channel.isTime (st r)) channels = Some tc ->
  Channel.data (st tc) = Some d ->
  values d !! 1%nat = Some x ->
  PrimFloat.eqb x 0 = true ->
  match d with
  | PyList _ =>
      Group.init st channels fileName verbose = Err ZeroDivisionError
  | NdArray _ | NdArray32 _ =>
      exists g,
        Group.init st channels fileName verbose = Ok g
        /\ (Group.frequency g = infinity \/ Group.frequency g = neg_infinity)
        /\ (Group.intervalstr g = "0.000μs"%string
            \/ Group.intervalstr g = "-0.000μs"%string)
  end.
Proof.
  intros Hf Hd Hx Hz. destruct d as [xs | xs | xs].
  - unfold Group.init. rewrite Hf. cbn [Group.getattr rbind].
    unfold Channel.getitem. rewrite Hd, Hx. cbn [rbind Group.getattr].
    destruct (Group.infer_unit_by (Group.lt (PyList xs)) x) as [u fac].
    cbn [Group.reciprocal]. unfold Py.truediv. rewrite Hz. reflexivity.
  - eexists.
    split; [exact (Group_init_ok _ _ _ _ _ _ _ _ Hf Hd Hx eq_refl)|].
    cbn [group_for Group.frequency Group.intervalstr].
    destruct (float_zero_cases x Hz) as [-> | ->].
    + split; left; reflexivity.
    + split; right; reflexivity.
  - eexists.
    split; [exact (Group_init_ok _ _ _ _ _ _ _ _ Hf Hd Hx eq_refl)|].
    cbn [group_for Group.frequency Group.intervalstr].
    destruct (float_zero_cases x Hz) as [-> | ->].
    + split; left; vm_compute; reflexivity.
    + split; right; vm_compute; reflexivity.
Qed.

Lemma Group_init_zero_second_sample_witness :
  exists g,
    Group.init Samples.st_still [0; 1]%nat "unknown" false = Ok g
    /\ (Group.frequency g = infinity \/ Group.frequency g = neg_infinity)
    /\ (Group.intervalstr g = "0.000μs"%string
        \/ Group.intervalstr g = "-0.000μs"%string).
Proof.
  apply (Group_init_zero_second_sample Samples.st_still [0; 1]%nat "unknown"
           false 0%nat (NdArray [0; 0]%float) 0%float).
  - reflexivity.
  - reflexivity.
  - reflexivity.
  - reflexivity.
Defined.

(** ** Indexing a channel and a group *)

Lemma py_index_in_range {A} (xs : list A) (key : Z) :
  - Z.of_nat (Datatypes.length xs) <= key < Z.of_nat (Datatypes.length xs) ->
  exists x,
    Methods.py_index xs key = Ok x
    /\ xs !! Z.to_nat (if key <? 0 then key + Z.of_nat (Datatypes.length xs)
                       else key) = Some x.
Proof.
  intros Hk. unfold Methods.py_index. cbv zeta.
  set (i := if key <? 0 then key + Z.of_nat (Datatypes.length xs) else key).
  assert (0 <= i < Z.of_nat (Datatypes.length xs)) as Hi
    by (subst i; destruct (key <? 0) eqn:E; lia).
  destruct (0 <=? i) eqn:E1; [|lia].
  destruct (i <? Z.of_nat (Datatypes.length xs)) eqn:E2; [|lia].
  cbn [andb].
  destruct (xs !! Z.to_nat i) as [x|] eqn:E.
  - exists x. split; reflexivity.
  - apply lookup_ge_None in E. lia.
Qed.

Lemma py_index_out_of_range {A} (xs : list A) (key : Z) :
  key < - Z.of_nat (Datatypes.length xs)
  \/ Z.of_nat (Datatypes.length xs) <= key ->
  Methods.py_index xs key = Err IndexError.
Proof.
  intros Hk. unfold Methods.py_index. cbv zeta.
  destruct (key <? 0) eqn:E.
  - destruct (0 <=? key + Z.of_nat (Datatypes.length xs)) eqn:E1;
      [lia | reflexivity].
  - destruct (key <? Z.of_nat (Datatypes.length xs)) eqn:E2; [lia|].
    rewrite andb_false_r. reflexivity.
Qed.

Lemma collect_all {A B} (f : A -> outcome B) (xs : list A) :
  (forall a, In a xs -> exists b, f a = Returns b) ->
  exists ys,
    Methods.collect f xs = Returns ys
    /\ Forall2 (fun a b => f a = Returns b) xs ys.
Proof.
  induction xs as [|a xs IH]; intros H; cbn [Methods.collect].
  - exists []. split; [reflexivity | constructor].
  - destruct (H a (or_introl eq_refl)) as [b Hb].
    destruct IH as (ys & Hys & HF); [intros a' Ha'; apply H; right; exact Ha'|].
    exists (b :: ys). rewrite Hb. cbn [obind]. rewrite Hys. cbn [obind].
    split; [reflexivity | constructor; assumption].
Qed.

(** X17. In a group built over channels that all hold [n] samples, the
    index [key] returns the time sample and one sample of every Y
    channel, in their order, for [-n <= key < n] (a negative key counts
    from the end), and raises an index error for every other key. *)
Theorem Group_getitem_uniform
    (st : store) (channels : list ref) (fileName : string) (verbose : bool)
    (g : Group.t) (n key : Z) :
  Group.init st channels fileName verbose = Ok g ->
  (forall r, In r channels ->
     exists d, Channel.data (st r) = Some d
               /\ Z.of_nat (Datatypes.length (values d)) = n) ->
  (- n <= key < n ->
   exists tc x ys,
     Group.ChannelX g = Some tc
     /\ Methods.Group_getitem st g key = Returns (x, ys)
     /\ Methods.Channel_getitem (st tc) key = Ok x
     /\ Forall2 (fun chan y => Methods.Channel_getitem (st chan) key = Ok y)
          (Group.ChannelsY g) ys)
  /\ (key < - n \/ n <= key ->
      Methods.Group_getitem st g key = Raises (Raised IndexError)).
Proof.
  intros Hg Hall.
  apply Group_init_inv in Hg as (tc & d & x0 & f & Hf & _ & _ & _ & ->).
  unfold Methods.Group_getitem, group_for.
  cbn [Group.ChannelX Group.ChannelsY].
  pose proof (find_some _ _ Hf) as [Htc _].
  destruct (Hall tc Htc) as (dt & Hdt & Hlt).
  split.
  - intros Hk.
    assert (forall r, In r channels ->
              exists y, Methods.Channel_getitem (st r) key = Ok y) as Hget.
    { intros r Hr. destruct (Hall r Hr) as (dr & Hdr & Hlr).
      unfold Methods.Channel_getitem. rewrite Hdr.
      destruct (py_index_in_range (values dr) key) as (y & Hy & _); [lia|].
      exists y. exact Hy. }
    destruct (Hget tc Htc) as [x Hx].
    destruct (collect_all
                (fun chan => of_result (Methods.Channel_getitem (st chan) key))
                (List.filter (fun chan => negb (Channel.isTime (st chan)))
                   channels)) as (ys & Hys & HF).
    { intros r Hr. apply filter_In in Hr as [Hr _].
      destruct (Hget r Hr) as [y Hy]. exists y. rewrite Hy. reflexivity. }
    exists tc, x, ys. split; [reflexivity|]. split.
    + rewrite Hx. cbn [of_result obind]. rewrite Hys. reflexivity.
    + split; [exact Hx|].
      eapply Forall2_impl; [exact HF|]. cbv beta. intros r y Hr.
      destruct (Methods.Channel_getitem (st r) key) as [y'|e];
        cbn [of_result] in Hr; [injection Hr as <-; reflexivity | discriminate].
  - intros Hk. unfold Methods.Channel_getitem at 1. rewrite Hdt.
    rewrite py_index_out_of_range by lia. reflexivity.
Qed.

Lemma Group_getitem_uniform_witness :
  (- 3 <= -1 < 3 ->
   exists tc x ys,
     Group.ChannelX
       (group_of Inputs.st_half_ms [0; 1; 2]%nat "unknown" false 0%nat
          0.0005 (1 / 0.0005)) = Some tc
     /\ Methods.Group_getitem Inputs.st_half_ms
          (group_of Inputs.st_half_ms [0; 1; 2]%nat "unknown" false 0%nat
             0.0005 (1 / 0.0005)) (-1) = Returns (x, ys)
     /\ Methods.Channel_getitem (Inputs.st_half_ms tc) (-1) = Ok x
     /\ Forall2
          (fun chan y =>
             Methods.Channel_getitem (Inputs.st_half_ms chan) (-1) = Ok y)
          (Group.ChannelsY
             (group_of Inputs.st_half_ms [0; 1; 2]%nat "unknown" false 0%nat
                0.0005 (1 / 0.0005))) ys)
  /\ (-1 < - 3 \/ 3 <= -1 ->
      Methods.Group_getitem Inputs.st_half_ms
        (group_of Inputs.st_half_ms [0; 1; 2]%nat "unknown" false 0%nat
           0.0005 (1 / 0.0005)) (-1) = Raises (Raised IndexError)).
Proof.
  apply (Group_getitem_uniform Inputs.st_half_ms [0; 1; 2]%nat "unknown"
           false
           (group_of Inputs.st_half_ms [0; 1; 2]%nat "unknown" false 0%nat
              0.0005 (1 / 0.0005)) 3 (-1)).
  - reflexivity.
  - intros r Hr. cbn [In] in Hr.
    destruct Hr as [<- | [<- | [<- | []]]]; eexists; split; reflexivity.
Defined.

(** ** Text export *)

Lemma decode_step_array {A} (m : M A) (k : A -> M (option samples)) :
  (forall a r d r', k a r = Ok (d, r') ->
     exists y, d = Some y /\ Methods.is_ndarray y = true) ->
  forall r d r', bind m k r = Ok (d, r') ->
    exists y, d = Some y /\ Methods.is_ndarray y = true.
Proof.
  intros Hk r d r' H. apply bind_returns in H as (a & r1 & _ & H).
  eapply Hk, H.
Qed.

Lemma ret_array (y : samples) :
  Methods.is_ndarray y = true ->
  forall (r : t) (d : option samples) (r' : t),
    ret (Some y) r = Ok (d, r') ->
    exists y', d = Some y' /\ Methods.is_ndarray y' = true.
Proof.
  intros Hy r d r'. unfold ret. intros H. injection H as <- _.
  exists y. split; [reflexivity | exact Hy].
Qed.

Lemma store_data_filtered
    (lfilter : list float -> float -> list float -> list float)
    (c c' : Channel.t) (d : option samples) (r1 r' : t) :
  Channel.filterData c = true ->
  Channel.store_data lfilter c d r1 = Ok (c', r') ->
  exists xs, Channel.data c' = Some (NdArray xs).
Proof.
  unfold Channel.store_data, Channel.filter, Channel.signal_lfilter.
  cbn zeta.
  change (Channel.filterData (Channel.set_data d c))
    with (Channel.filterData c).
  change (Channel.data (Channel.set_data d c)) with d.
  intros ->. destruct d as [d|]; [|discriminate].
  destruct (values d) as [|x xs]; [discriminate|].
  unfold ret. intros H. injection H as <- _. eexists. reflexivity.
Qed.

(** The samples are a NumPy array after a body read on the fast path or
    with the filter on. *)
Lemma readData_gives_array
    (lfilter : list float -> float -> list float -> list float)
    (c c' : Channel.t) (r r' : t) :
  Channel.broken c = false ->
  (Channel.fastload c = true
   /\ (Channel.precision c = 8 \/ Channel.precision c = 4
       \/ Channel.precision c = 2))
  \/ Channel.filterData c = true ->
  Channel.readData lfilter c r = Ok (c', r') ->
  (exists y, Channel.data c' = Some y /\ Methods.is_ndarray y = true)
  /\ c' = Channel.set_data (Channel.data c') c.
Proof.
  intros Hb Hcase H. unfold Channel.readData in H. rewrite Hb in H.
  apply bind_returns in H as (d & r1 & Hd & H).
  pose proof (store_data_inv _ _ _ _ _ _ H) as (Hc & _ & Hun & _).
  split; [|exact Hc].
  destruct (Channel.filterData c) eqn:Efd.
  - destruct (store_data_filtered _ _ _ _ _ _ Efd H) as [xs Hxs].
    exists (NdArray xs). split; [exact Hxs | reflexivity].
  - destruct Hcase as [[Hf Hp] | Hfd]; [|discriminate].
    rewrite (Hun eq_refl). rewrite Hf in Hd. revert Hd.
    destruct Hp as [Hp | [Hp | Hp]]; rewrite Hp; cbn [Z.eqb Pos.eqb orb];
      repeat first [ apply ret_array; reflexivity
                   | apply decode_step_array; intros ? ].
Qed.

(** X18. A channel whose body was read on the fast path (the default)
    or with the filter on holds a NumPy array, and its JSON export
    raises a type error: the array is handed to [json.dumps] as it is.
    (A time channel and a channel of length 0 return before that.) *)
Theorem Channel_getas_json_of_array
    (lfilter : list float -> float -> list float -> list float)
    (str_sample : Channel.t -> float -> string) (json_float : float -> string)
    (st : store) (c c' : Channel.t) (r r' : t) :
  Channel.broken c = false ->
  (Channel.fastload c = true
   /\ (Channel.precision c = 8 \/ Channel.precision c = 4
       \/ Channel.precision c = 2))
  \/ Channel.filterData c = true ->
  Channel.readData lfilter c r = Ok (c', r') ->
  Channel.isTime c = false ->
  Channel.length c <> 0 ->
  Channel.Time c = None
  \/ (exists tc d, Channel.Time c = Some tc /\ Channel.data (st tc) = Some d) ->
  Methods.Channel_getas str_sample json_float st c' "json" = Raises TypeError.
Proof.
  intros Hb Hcase H Ht Hl HT.
  apply readData_gives_array in H as [(y & Hx & Hy) Hc]; [|assumption..].
  unfold Methods.Channel_getas.
  rewrite Hc. cbn [Channel.isTime Channel.length Channel.Time Channel.data
                     Channel.set_data].
  rewrite Ht. destruct (Channel.length c =? 0) eqn:E0; [lia|].
  cbn [String.eqb Ascii.eqb Bool.eqb andb]. rewrite Hx.
  destruct HT as [-> | (tc & d & -> & Hd)].
  - cbn [Group.getattr of_result obind app].
    unfold Methods.json_dumps. cbn [existsb snd]. rewrite Hy. reflexivity.
  - rewrite Hd. cbn [Group.getattr of_result obind app].
    unfold Methods.json_dumps. cbn [existsb snd]. rewrite Hy.
    rewrite orb_true_r. reflexivity.
Qed.

Lemma Channel_getas_json_of_array_witness :
  Methods.Channel_getas (fun _ _ => ""%string) (fun _ => ""%string)
    Inputs.st_no_time
    (Channel.set_data (Some (NdArray [0; 100]%float))
       (Inputs.channel false true "U" 2 2 None)) "json"
  = Raises TypeError.
Proof.
  apply (Channel_getas_json_of_array Inputs.no_filter (fun _ _ => ""%string)
           (fun _ => ""%string) Inputs.st_no_time
           (Inputs.channel false true "U" 2 2 None)
           (Channel.set_data (Some (NdArray [0; 100]%float))
              (Inputs.channel false true "U" 2 2 None))
           (mk Inputs.body_edges 0) (mk Inputs.body_edges 20)).
  - reflexivity.
  - left. split; [reflexivity|]. right. right. reflexivity.
  - vm_compute. reflexivity.
  - reflexivity.
  - vm_compute. discriminate.
  - left. reflexivity.
Defined.

Lemma collect_seq {B} (f : nat -> outcome B) (g : nat -> B) (s n : nat) :
  (forall i, (s <= i < s + n)%nat -> f i = Returns (g i)) ->
  Methods.collect f (seq s n) = Returns (map g (seq s n)).
Proof.
  revert s. induction n as [|n IH]; intros s H; cbn [seq Methods.collect map].
  - reflexivity.
  - rewrite H by lia. cbn [obind]. rewrite IH; [reflexivity|].
    intros i Hi. apply H. lia.
Qed.

Lemma collect_seq_raises {B} (f : nat -> outcome B) (e : pyexc)
    (s n k : nat) :
  (s <= k < s + n)%nat ->
  f k = Raises e ->
  (forall i, (s <= i < k)%nat -> (exists b, f i = Returns b) \/ f i = Raises e) ->
  Methods.collect f (seq s n) = Raises e.
Proof.
  revert s. induction n as [|n IH]; intros s Hk Hf Hbefore; [lia|].
  cbn [seq Methods.collect].
  destruct (Nat.eq_dec s k) as [-> | Hne].
  - rewrite Hf. reflexivity.
  - destruct (Hbefore s) as [[b Hb] | He]; [lia | |].
    + rewrite Hb. cbn [obind]. rewrite IH; [reflexivity | lia | exact Hf |].
      intros i Hi. apply Hbefore. lia.
    + rewrite He. reflexivity.
Qed.

Lemma Channel_getitem_lookup (c : Channel.t) (d : samples) (i : nat) :
  Channel.data c = Some d ->
  Channel.getitem c i
  = match values d !! i with Some x => Ok x | None => Err IndexError end.
Proof. intros Hd. unfold Channel.getitem. rewrite Hd. reflexivity. Qed.

(** X19. The CSV text of a channel linked to a time channel, when both
    hold at least the declared number of samples: one line per declared
    sample, and line [i] is the time sample [i], a tab, the sample [i]
    and a line feed. Samples beyond the declared length are not
    written. *)
Theorem Channel_getas_csv_linked
    (str_sample : Channel.t -> float -> string) (json_float : float -> string)
    (st : store) (c : Channel.t) (tc : ref) (dx dy : samples) :
  Channel.isTime c = false ->
  0 < Channel.length c ->
  Channel.Time c = Some tc ->
  Channel.data (st tc) = Some dx ->
  Channel.data c = Some dy ->
  (Z.to_nat (Channel.length c) <= Datatypes.length (values dx))%nat ->
  (Z.to_nat (Channel.length c) <= Datatypes.length (values dy))%nat ->
  exists rows,
    Methods.Channel_getas str_sample json_float st c "csv"
    = Returns (Some (String.concat "" rows))
    /\ Datatypes.length rows = Z.to_nat (Channel.length c)
    /\ forall i x y,
         (i < Z.to_nat (Channel.length c))%nat ->
         values dx !! i = Some x ->
         values dy !! i = Some y ->
         rows !! i
         = Some (str_sample (st tc) x ++ Methods.TAB ++ str_sample c y
                 ++ Methods.NL)%string.
Proof.
  intros Ht Hl HT Hdx Hdy Hnx Hny.
  set (n := Z.to_nat (Channel.length c)) in *.
  set (row := fun i : nat =>
         (str_sample (st tc) (nth i (values dx) 0%float) ++ Methods.TAB
          ++ str_sample c (nth i (values dy) 0%float) ++ Methods.NL)%string).
  exists (map row (seq 0 n)). split; [|split].
  - unfold Methods.Channel_getas. rewrite Ht.
    destruct (Channel.length c =? 0) eqn:E0; [lia|].
    cbn [String.eqb Ascii.eqb Bool.eqb andb]. fold n.
    rewrite (collect_seq _ row); [reflexivity|].
    intros i Hi. unfold Methods.Channel_csv_row. rewrite HT.
    rewrite (Channel_getitem_lookup _ _ i Hdx),
      (Channel_getitem_lookup _ _ i Hdy).
    destruct (lookup_lt_is_Some_2 (values dx) i) as [x Hx]; [lia|].
    destruct (lookup_lt_is_Some_2 (values dy) i) as [y Hy]; [lia|].
    rewrite Hx, Hy. cbn [of_result obind]. unfold row.
    rewrite !nth_lookup, Hx, Hy. reflexivity.
  - rewrite length_map, length_seq. reflexivity.
  - intros i x y Hi Hx Hy.
    rewrite list_lookup_fmap, lookup_seq_lt by exact Hi.
    cbn [fmap option_fmap option_map Nat.add]. unfold row.
    rewrite !nth_lookup, Hx, Hy. reflexivity.
Qed.

(** X20. The CSV export trusts the declared length: when the channel
    holds fewer samples than declared (as after a fast read of a body
    that ended early), the export raises an index error instead of
    writing the samples that are there. *)
Theorem Channel_getas_csv_short_data
    (str_sample : Channel.t -> float -> string) (json_float : float -> string)
    (st : store) (c : Channel.t) (dy : samples) :
  Channel.isTime c = false ->
  Channel.data c = Some dy ->
  (Datatypes.length (values dy) < Z.to_nat (Channel.length c))%nat ->
  Channel.Time c = None
  \/ (exists tc dx, Channel.Time c = Some tc /\ Channel.data (st tc) = Some dx) ->
  Methods.Channel_getas str_sample json_float st c "csv"
  = Raises (Raised IndexError).
Proof.
  intros Ht Hdy Hlen HT.
  unfold Methods.Channel_getas. rewrite Ht.
  destruct (Channel.length c =? 0) eqn:E0; [lia|].
  cbn [String.eqb Ascii.eqb Bool.eqb andb].
  assert (forall i,
             (exists b, Methods.Channel_csv_row str_sample st c i = Returns b)
             \/ Methods.Channel_csv_row str_sample st c i
                = Raises (Raised IndexError)) as Hrow.
  { intros i. unfold Methods.Channel_csv_row.
    rewrite (Channel_getitem_lookup _ _ i Hdy).
    destruct HT as [-> | (tc & dx & -> & Hdx)].
    - cbn [obind]. destruct (values dy !! i); cbn [of_result obind];
        [left; eexists; reflexivity | right; reflexivity].
    - rewrite (Channel_getitem_lookup _ _ i Hdx).
      destruct (values dx !! i); cbn [of_result obind];
        [|right; reflexivity].
      destruct (values dy !! i); cbn [of_result obind];
        [left; eexists; reflexivity | right; reflexivity]. }
  rewrite (collect_seq_raises _ (Raised IndexError) 0 _
             (Datatypes.length (values dy))); [reflexivity | lia | |].
  - destruct (Hrow (Datatypes.length (values dy))) as [[b Hb] | He];
      [|exact He].
    exfalso. unfold Methods.Channel_csv_row in Hb.
    rewrite (Channel_getitem_lookup _ _ _ Hdy) in Hb.
    rewrite (proj2 (lookup_ge_None (values dy) _)) in Hb by lia.
    destruct (match Channel.Time c with
              | Some tc =>
                  obind (of_result (Channel.getitem (st tc)
                                      (Datatypes.length (values dy))))
                    (fun x => Returns (str_sample (st tc) x))
              | None => Returns ""%string
              end); cbn [of_result obind] in Hb; discriminate Hb.
  - intros i _. apply Hrow.
Qed.

Lemma Channel_getas_csv_linked_witness :
  exists rows,
    Methods.Channel_getas Samples.no_text Samples.no_json Samples.st_linked
      (Samples.st_linked 1%nat) "csv"
    = Returns (Some (String.concat "" rows))
    /\ Datatypes.length rows
       = Z.to_nat (Channel.length (Samples.st_linked 1%nat))
    /\ forall i x y,
         (i < Z.to_nat (Channel.length (Samples.st_linked 1%nat)))%nat ->
         values (NdArray [0; 0.0005; 0.001]%float) !! i = Some x ->
         values (PyList [1; 2; 3]%float) !! i = Some y ->
         rows !! i
         = Some (Samples.no_text (Samples.st_linked 0%nat) x ++ Methods.TAB
                 ++ Samples.no_text (Samples.st_linked 1%nat) y
                 ++ Methods.NL)%string.
Proof.
  apply (Channel_getas_csv_linked Samples.no_text Samples.no_json
           Samples.st_linked (Samples.st_linked 1%nat) 0%nat
           (NdArray [0; 0.0005; 0.001]%float) (PyList [1; 2; 3]%float)).
  - reflexivity.
  - reflexivity.
  - reflexivity.
  - reflexivity.
  - reflexivity.
  - vm_compute. lia.
  - vm_compute. lia.
Defined.

Lemma Channel_getas_csv_short_data_witness :
  Methods.Channel_getas Samples.no_text Samples.no_json Inputs.st_no_time
    Samples.short_channel "csv"
  = Raises (Raised IndexError).
Proof.
  apply (Channel_getas_csv_short_data Samples.no_text Samples.no_json
           Inputs.st_no_time Samples.short_channel (NdArray [0; 0]%float)).
  - reflexivity.
  - reflexivity.
  - vm_compute. lia.
  - left. reflexivity.
Defined.

(** X21. The CSV text of a group built over channels that all hold [n]
    samples: the export returns exactly [n] lines, one per time sample,
    and line [i] is the time sample [i], then for every Y channel, in
    the order of [ChannelsY], a tab and its sample [i], and a line
    feed. *)
Theorem Group_getas_csv_rows
    (str_sample : Channel.t -> float -> string) (json_float : float -> string)
    (st : store) (channels : list ref) (fileName : string) (verbose : bool)
    (g : Group.t) (n : nat) :
  Group.init st channels fileName verbose = Ok g ->
  (forall r, In r channels ->
     exists d, Channel.data (st r) = Some d
               /\ Datatypes.length (values d) = n) ->
  exists tc rows,
    Group.ChannelX g = Some tc
    /\ Methods.Group_getas str_sample json_float st g "csv"
       = Returns (String.concat "" rows)
    /\ Datatypes.length rows = n
    /\ forall i, (i < n)%nat ->
         exists x cells,
           Channel.getitem (st tc) i = Ok x
           /\ Forall2
                (fun chan cell =>
                   exists y,
                     Channel.getitem (st chan) i = Ok y
                     /\ cell = (Methods.TAB ++ str_sample (st chan) y)%string)
                (Group.ChannelsY g) cells
           /\ rows !! i
              = Some (str_sample (st tc) x ++ String.concat "" cells
                      ++ Methods.NL)%string.
Proof.
  intros Hg Hall.
  apply Group_init_inv in Hg as (tc & d & x0 & f & Hf & _ & _ & _ & Eg).
  assert (Group.ChannelX g = Some tc) as HX by (rewrite Eg; reflexivity).
  assert (Group.ChannelsY g
          = List.filter (fun chan => negb (Channel.isTime (st chan))) channels)
    as HY by (rewrite Eg; reflexivity).
  clear Eg.
  pose proof (find_some _ _ Hf) as [Htc _].
  destruct (Hall tc Htc) as (dt & Hdt & Hlt).
  assert (forall i, (i < n)%nat ->
            exists x cells,
              Channel.getitem (st tc) i = Ok x
              /\ Forall2
                   (fun chan cell =>
                      exists y,
                        Channel.getitem (st chan) i = Ok y
                        /\ cell
                           = (Methods.TAB ++ str_sample (st chan) y)%string)
                   (Group.ChannelsY g) cells
              /\ Methods.Group_csv_row str_sample st g i
                 = Returns (str_sample (st tc) x ++ String.concat "" cells
                            ++ Methods.NL)%string) as Hrow.
  { intros i Hi. unfold Methods.Group_csv_row. rewrite HX.
    cbn [Group.getattr of_result obind].
    rewrite (Channel_getitem_lookup _ _ i Hdt).
    destruct (lookup_lt_is_Some_2 (values dt) i) as [x Hx]; [lia|].
    rewrite Hx. cbn [of_result obind].
    destruct (collect_all
                (fun chan =>
                   obind (of_result (Channel.getitem (st chan) i))
                     (fun y =>
                        Returns (Methods.TAB ++ str_sample (st chan) y)%string))
                (Group.ChannelsY g)) as (cells & Hcells & HF).
    { intros r Hr. rewrite HY in Hr. apply filter_In in Hr as [Hr _].
      destruct (Hall r Hr) as (dr & Hdr & Hlr).
      rewrite (Channel_getitem_lookup _ _ i Hdr).
      destruct (lookup_lt_is_Some_2 (values dr) i) as [y Hy]; [lia|].
      rewrite Hy. eexists. reflexivity. }
    exists x, cells. split; [reflexivity|]. split.
    - eapply Forall2_impl; [exact HF|]. cbv beta. intros chan cell Hc.
      destruct (Channel.getitem (st chan) i) as [y|e];
        cbn [of_result obind] in Hc; [|discriminate].
      injection Hc as <-. exists y. split; reflexivity.
    - rewrite Hcells. reflexivity. }
  destruct (collect_all (Methods.Group_csv_row str_sample st g) (seq 0 n))
    as (rows & Hrows & HF).
  { intros i Hi. apply in_seq in Hi.
    destruct (Hrow i) as (x & cells & _ & _ & E); [lia|].
    eexists. exact E. }
  exists tc, rows. split; [exact HX|]. split; [|split].
  - unfold Methods.Group_getas. rewrite HX, Hdt.
    cbn [Group.getattr of_result obind String.eqb Ascii.eqb Bool.eqb andb].
    rewrite Hlt, Hrows. reflexivity.
  - apply Forall2_length in HF. rewrite length_seq in HF. symmetry. exact HF.
  - intros i Hi. destruct (Hrow i Hi) as (x & cells & Hx & Hcells & E).
    exists x, cells. split; [exact Hx|]. split; [exact Hcells|].
    destruct (Forall2_lookup_l _ _ _ i i HF) as (row & Hr & HP).
    { apply lookup_seq_lt. exact Hi. }
    rewrite E in HP. injection HP as <-. exact Hr.
Qed.

Lemma Group_getas_csv_rows_witness :
  exists tc rows,
    Group.ChannelX
      (group_of Inputs.st_half_ms [0; 1; 2]%nat "unknown" false 0%nat
         0.0005 (1 / 0.0005)) = Some tc
    /\ Methods.Group_getas Samples.no_text Samples.no_json Inputs.st_half_ms
         (group_of Inputs.st_half_ms [0; 1; 2]%nat "unknown" false 0%nat
            0.0005 (1 / 0.0005)) "csv"
       = Returns (String.concat "" rows)
    /\ Datatypes.length rows = 3%nat
    /\ forall i, (i < 3)%nat ->
         exists x cells,
           Channel.getitem (Inputs.st_half_ms tc) i = Ok x
           /\ Forall2
                (fun chan cell =>
                   exists y,
                     Channel.getitem (Inputs.st_half_ms chan) i = Ok y
                     /\ cell
                        = (Methods.TAB
                           ++ Samples.no_text (Inputs.st_half_ms chan) y)%string)
                (Group.ChannelsY
                   (group_of Inputs.st_half_ms [0; 1; 2]%nat "unknown" false
                      0%nat 0.0005 (1 / 0.0005))) cells
           /\ rows !! i
              = Some (Samples.no_text (Inputs.st_half_ms tc) x
                      ++ String.concat "" cells ++ Methods.NL)%string.
Proof.
  apply (Group_getas_csv_rows Samples.no_text Samples.no_json
           Inputs.st_half_ms [0; 1; 2]%nat "unknown" false).
  - reflexivity.
  - intros r Hr. cbn [In] in Hr.
    destruct Hr as [<- | [<- | [<- | []]]]; eexists; split; reflexivity.
Defined.
